(** * Accessing Wikidata with Python: the API cells of the notebook

    A shallow embedding of the code cells of
    [meetupNotebook_API_and_pywikibot.ipynb] that talk to the Wikidata API
    through [requests]: the search cell (cell 5) and the authenticated
    write sequence (cells 17, 19, 21 and 23, after the imports of cell 3).

    - JSON documents and the Python values the cells handle are one
      inductive type; a dict is an association list in insertion order,
      its keys distinct.
    - The kernel's global namespace, what has been printed, the calls sent
      to the remote service and the service itself are an explicit state;
      a cell is a state transformer that either completes or raises.
    - The remote service is a parameter: any state type with any step
      function from requests to replies. *)

From Stdlib Require Import ZArith String Ascii List Lia.
From stdpp Require Import base list strings.


#[local] Set Warnings "-register-all".

(** ** Python values *)

Module Py.

(** What [response.json()] can return, and hence every value the cells
    compute with.  A str is kept as its UTF-8 bytes. *)
Inductive json : Type :=
  | JNull
  | JBool (b : bool)
  | JInt (z : Z)
  | JFloat (literal : string)
  | JStr (s : string)
  | JArr (items : list json)
  | JObj (fields : list (string * json)).

Inductive exn : Type :=
  | KeyError (key : json)
  | TypeError
  | IndexError
  | AttributeError
  | NameError (name : string)
  | RequestException
  | JSONDecodeError.

Inductive result (A : Type) : Type :=
  | Ok (a : A)
  | Raise (e : exn).
Arguments Ok {A} a.
Arguments Raise {A} e.

(** [d.get(k)] on the association list behind a dict. *)
Fixpoint assoc (k : string) (kvs : list (string * json)) : option json :=
  match kvs with
  | [] => None
  | (k', v) :: rest => if String.eqb k k' then Some v else assoc k rest
  end.

Definition has_key (k : string) (kvs : list (string * json)) : bool :=
  match assoc k kvs with
  | Some _ => true
  | None => false
  end.

(** [o[k]] for a str key [k]. *)
Definition getitem (o : json) (k : string) : result json :=
  match o with
  | JObj kvs =>
      match assoc k kvs with
      | Some v => Ok v
      | None => Raise (KeyError (JStr k))
      end
  | _ => Raise TypeError
  end.

(** Number of bytes of the UTF-8 sequence that starts with byte [c]. *)
Definition utf8_width (c : ascii) : nat :=
  let n := nat_of_ascii c in
  if Nat.ltb n 128 then 1 else if Nat.ltb n 224 then 2
  else if Nat.ltb n 240 then 3 else 4.

Fixpoint split_at (n : nat) (s : string) : string * string :=
  match n, s with
  | S n', String c s' => let p := split_at n' s' in (String c (fst p), snd p)
  | _, _ => (EmptyString, s)
  end.

Fixpoint chars_fuel (fuel : nat) (s : string) : list string :=
  match fuel, s with
  | S f, String c s' =>
      let p := split_at (utf8_width c - 1) s' in
      String c (fst p) :: chars_fuel f (snd p)
  | _, _ => []
  end.

(** The characters of a str, each as a str of its own. *)
Definition chars (s : string) : list string := chars_fuel (String.length s) s.

(** [o[0]]. *)
Definition getitem0 (o : json) : result json :=
  match o with
  | JArr (x :: _) => Ok x
  | JArr [] => Raise IndexError
  | JStr s =>
      match chars s with
      | c :: _ => Ok (JStr c)
      | [] => Raise IndexError
      end
  | JObj _ => Raise (KeyError (JInt 0))
  | _ => Raise TypeError
  end.

(** [o.keys()]. *)
Definition keys (o : json) : result (list string) :=
  match o with
  | JObj kvs => Ok (map fst kvs)
  | _ => Raise AttributeError
  end.

Definition is_str (k : string) (v : json) : bool :=
  match v with
  | JStr s => String.eqb k s
  | _ => false
  end.

(** [k in o] for a str [k]: key membership in a dict, element membership
    in a list, substring test on a str. *)
Definition contains (k : string) (o : json) : result bool :=
  match o with
  | JObj kvs => Ok (has_key k kvs)
  | JArr l => Ok (existsb (is_str k) l)
  | JStr s => Ok (match index 0 k s with Some _ => true | None => false end)
  | _ => Raise TypeError
  end.

(** [a + b] where the source has a str on one side: the sum exists only
    when the other side is a str as well. *)
Definition add_str (a b : json) : result json :=
  match a, b with
  | JStr x, JStr y => Ok (JStr (x +:+ y))
  | _, _ => Raise TypeError
  end.

(** [iter(o)], as the [for] statement calls it. *)
Definition iter (o : json) : result (list json) :=
  match o with
  | JArr l => Ok l
  | JObj kvs => Ok (map (fun kv => JStr (fst kv)) kvs)
  | JStr s => Ok (map JStr (chars s))
  | _ => Raise TypeError
  end.

(** One argument of a [print] call: a value, or the [dict_keys] view that
    [keys()] returns. *)
Inductive shown : Type :=
  | ShowVal (v : json)
  | ShowKeys (ks : list string).

End Py.
Import Py.

(** ** HTTP through [requests] *)

Inductive method : Type := GET | POST.

(** A call as the cell hands it to [requests]: the [Session] object it
    goes through ([None] for the module-level [requests.get], which uses a
    throw-away session), the verb, the URL and the dict given as [params]
    or [data].  The session's cookie jar is what lets the service relate
    calls to one another, so the service sees which session a call uses. *)
Record request : Type := {
  rq_session : option nat;
  rq_method : method;
  rq_url : string;
  rq_fields : list (string * json)
}.

(** The [Response] object: the cells never read the status, and
    [response.json()] raises when the body does not parse. *)
Record response : Type := {
  status : Z;
  body : option json
}.

Inductive reply : Type :=
  | NoReply                 (* [requests] raises: nothing came back *)
  | Reply (r : response).

Definition action_is (a : string) (rq : request) : bool :=
  match assoc "action" (rq_fields rq) with
  | Some v => is_str a v
  | None => false
  end.

Definition json_of (r : response) : result json :=
  match body r with
  | Some j => Ok j
  | None => Raise JSONDecodeError
  end.

(** ** The kernel and the world around it *)

(** The global names that more than one cell reads or writes.  Names that
    a single cell binds and nothing else reads are bound by [let] in that
    cell's definition. *)
Record names : Type := {
  n_requests : bool;              (* [import requests] has run *)
  n_API_URI : option string;
  n_session : option nat;         (* identity of the [Session] object *)
  n_response : option response;
  n_token : option json
}.

Definition no_names : names :=
  {| n_requests := false; n_API_URI := None; n_session := None;
     n_response := None; n_token := None |}.

Section Notebook.

Context {Srv : Type}.
Variable serve : Srv -> request -> Srv * reply.

Record world : Type := {
  remote : Srv;                        (* the service *)
  calls : list (request * reply);      (* outbound calls, oldest first *)
  stdout : list (list shown);          (* the [print] calls, oldest first *)
  next_id : nat;                       (* objects created so far *)
  globals : names
}.

Definition fresh_kernel (s : Srv) : world :=
  {| remote := s; calls := []; stdout := []; next_id := 0;
     globals := no_names |}.

(** A statement: it changes the world and completes with a value or
    raises.  What was done before the exception stays done. *)
Definition M (A : Type) : Type := world -> world * result A.

Definition ret {A} (a : A) : M A := fun w => (w, Ok a).

Definition bind {A B} (c : M A) (k : A -> M B) : M B :=
  fun w =>
    let (w', r) := c w in
    match r with
    | Ok a => k a w'
    | Raise e => (w', Raise e)
    end.

Definition lift {A} (r : result A) : M A := fun w => (w, r).

Notation "x <- c ;; k" := (bind c (fun x => k))
  (at level 100, c at next level, right associativity).
Notation "c ;;; k" := (bind c (fun _ => k))
  (at level 100, right associativity).

Definition with_globals (f : names -> names) : M unit :=
  fun w =>
    ({| remote := remote w; calls := calls w; stdout := stdout w;
        next_id := next_id w; globals := f (globals w) |}, Ok tt).

Definition import_requests : M unit :=
  with_globals (fun n =>
    {| n_requests := true; n_API_URI := n_API_URI n;
       n_session := n_session n; n_response := n_response n;
       n_token := n_token n |}).

Definition assign_API_URI (u : string) : M unit :=
  with_globals (fun n =>
    {| n_requests := n_requests n; n_API_URI := Some u;
       n_session := n_session n; n_response := n_response n;
       n_token := n_token n |}).

Definition assign_session (s : nat) : M unit :=
  with_globals (fun n =>
    {| n_requests := n_requests n; n_API_URI := n_API_URI n;
       n_session := Some s; n_response := n_response n;
       n_token := n_token n |}).

Definition assign_response (r : response) : M unit :=
  with_globals (fun n =>
    {| n_requests := n_requests n; n_API_URI := n_API_URI n;
       n_session := n_session n; n_response := Some r;
       n_token := n_token n |}).

Definition assign_token (t : json) : M unit :=
  with_globals (fun n =>
    {| n_requests := n_requests n; n_API_URI := n_API_URI n;
       n_session := n_session n; n_response := n_response n;
       n_token := Some t |}).

(** Reading a global name: [NameError] when it is not bound. *)
Definition name {A} (id : string) (get : names -> option A) : M A :=
  fun w =>
    match get (globals w) with
    | Some v => (w, Ok v)
    | None => (w, Raise (NameError id))
    end.

Definition name_requests : M unit :=
  fun w =>
    if n_requests (globals w) then (w, Ok tt)
    else (w, Raise (NameError "requests")).

(** [print(a, b, ...)]. *)
Definition print (args : list shown) : M unit :=
  fun w =>
    ({| remote := remote w; calls := calls w;
        stdout := stdout w ++ [args];
        next_id := next_id w; globals := globals w |}, Ok tt).

(** [requests.Session()]: a new object. *)
Definition new_Session : M nat :=
  fun w =>
    ({| remote := remote w; calls := calls w; stdout := stdout w;
        next_id := S (next_id w); globals := globals w |}, Ok (next_id w)).

(** One HTTP round trip.  The call is on record and the service has moved
    on whether or not a reply comes back. *)
Definition send (m : method) (s : option nat) (url : string)
    (fields : list (string * json)) : M response :=
  fun w =>
    let rq := {| rq_session := s; rq_method := m; rq_url := url;
                 rq_fields := fields |} in
    let out := serve (remote w) rq in
    let w' := {| remote := fst out; calls := calls w ++ [(rq, snd out)];
                 stdout := stdout w; next_id := next_id w;
                 globals := globals w |} in
    match snd out with
    | Reply r => (w', Ok r)
    | NoReply => (w', Raise RequestException)
    end.

Fixpoint for_each {A} (body : A -> M unit) (l : list A) : M unit :=
  match l with
  | [] => ret tt
  | x :: rest => body x ;;; for_each body rest
  end.

(** ** The cells *)

(** Cell 3. *)
Definition cell_3 : M unit :=
  import_requests ;;;
  assign_API_URI "https://www.wikidata.org/w/api.php".

(** Cell 5, body of the [for] loop. *)
Definition show_hit (hit : json) : M unit :=
  page_id <- lift (getitem hit "id") ;;
  has_label <- lift (contains "label" hit) ;;
  label <- (if has_label : bool then lift (getitem hit "label")
            else ret (JStr "")) ;;
  has_description <- lift (contains "description" hit) ;;
  description <-
    (if has_description : bool then
       d <- lift (getitem hit "description") ;;
       l <- lift (add_str (JStr "(") d) ;;
       lift (add_str l (JStr ")"))
     else ret (JStr "")) ;;
  s1 <- lift (add_str page_id (JStr ": ")) ;;
  s2 <- lift (add_str s1 label) ;;
  s3 <- lift (add_str s2 (JStr " ")) ;;
  s4 <- lift (add_str s3 description) ;;
  print [ShowVal s4].

(** Cell 5. *)
Definition cell_5 : M unit :=
  let search_parameters :=
    [("action", JStr "wbsearchentities"); ("format", JStr "json");
     ("language", JStr "de"); ("type", JStr "item")] in
  let search_parameters := search_parameters ++ [("search", JStr "Zürich")] in
  name_requests ;;;
  uri <- name "API_URI" n_API_URI ;;
  response <- send GET None uri search_parameters ;;
  assign_response response ;;;
  j <- lift (json_of response) ;;
  search_results <- lift (getitem j "search") ;;
  first <- lift (getitem0 search_results) ;;
  ks <- lift (keys first) ;;
  print [ShowVal (JStr "fields of a search hit:"); ShowKeys ks] ;;;
  print [] ;;;
  hits <- lift (iter search_results) ;;
  for_each show_hit hits.

(** Cell 17. *)
Definition cell_17 : M unit :=
  name_requests ;;;
  session <- new_Session ;;
  assign_session session ;;;
  session <- name "session" n_session ;;
  uri <- name "API_URI" n_API_URI ;;
  response <- send GET (Some session) uri
    [("action", JStr "query"); ("format", JStr "json");
     ("meta", JStr "tokens"); ("type", JStr "login")] ;;
  assign_response response ;;;
  response <- name "response" n_response ;;
  j <- lift (json_of response) ;;
  query <- lift (getitem j "query") ;;
  tokens <- lift (getitem query "tokens") ;;
  token <- lift (getitem tokens "logintoken") ;;
  assign_token token ;;;
  token <- name "token" n_token ;;
  print [ShowVal (JStr "retrieved login token:"); ShowVal token].

(** Cell 19.  The notebook writes the account name and the bot password
    as literals in the dict; the cell is given for any pair, and [cell_19]
    below is the notebook's. *)
Definition login_cell (lgname lgpassword : string) : M unit :=
  session <- name "session" n_session ;;
  uri <- name "API_URI" n_API_URI ;;
  token <- name "token" n_token ;;
  response <- send POST (Some session) uri
    [("action", JStr "login"); ("lgname", JStr lgname);
     ("lgpassword", JStr lgpassword); ("lgtoken", token);
     ("format", JStr "json")] ;;
  assign_response response ;;;
  response <- name "response" n_response ;;
  j <- lift (json_of response) ;;
  login <- lift (getitem j "login") ;;
  res <- lift (getitem login "result") ;;
  print [ShowVal (JStr "login:"); ShowVal res].

Definition cell_19 : M unit :=
  login_cell "Lkastler@wikidata_zurich" "7343er7i5aspf9182s13mp70j8b9tjj3".

(** Cell 21. *)
Definition cell_21 : M unit :=
  session <- name "session" n_session ;;
  uri <- name "API_URI" n_API_URI ;;
  response <- send GET (Some session) uri
    [("action", JStr "query"); ("format", JStr "json");
     ("meta", JStr "tokens")] ;;
  assign_response response ;;;
  response <- name "response" n_response ;;
  j <- lift (json_of response) ;;
  query <- lift (getitem j "query") ;;
  tokens <- lift (getitem query "tokens") ;;
  token <- lift (getitem tokens "csrftoken") ;;
  assign_token token ;;;
  token <- name "token" n_token ;;
  print [ShowVal (JStr "working token:"); ShowVal token].

(** What the claim to create says; the notebook writes these five as
    literals as well. *)
Record edit : Type := {
  entity : string;
  property : string;
  snaktype : string;
  summary : string;
  value : string
}.

(** Cell 23, for any [edit]. *)
Definition create_claim_cell (e : edit) : M unit :=
  session <- name "session" n_session ;;
  uri <- name "API_URI" n_API_URI ;;
  token <- name "token" n_token ;;
  response <- send POST (Some session) uri
    [("action", JStr "wbcreateclaim"); ("entity", JStr (entity e));
     ("format", JStr "json"); ("property", JStr (property e));
     ("snaktype", JStr (snaktype e)); ("summary", JStr (summary e));
     ("token", token); ("value", JStr (value e))] ;;
  assign_response response ;;;
  response <- name "response" n_response ;;
  j <- lift (json_of response) ;;
  print [ShowVal j].

Definition quoted (s : string) : string :=
  String "034"%char (s +:+ String "034"%char EmptyString).

(** The notebook's edit: native language (P103) of the sandbox item is
    German (Q188). *)
Definition sandbox_edit : edit :=
  {| entity := "Q15397819";
     property := "P103";
     snaktype := "value";
     summary := "add claim to sandbox";
     value := "{" +:+ quoted "entity-type" +:+ ":" +:+ quoted "item" +:+ ","
              +:+ quoted "id" +:+ ":" +:+ quoted "Q188" +:+ "}" |}.

Definition cell_23 : M unit := create_claim_cell sandbox_edit.

(** ** The authenticated write sequence

    The cells in the order of the notebook.  A cell that raises stops the
    run: the cells after it are not executed. *)

(** Up to the point where the commit can be made. *)
Definition handshake (lgname lgpassword : string) : M unit :=
  cell_3 ;;; cell_17 ;;; login_cell lgname lgpassword ;;; cell_21.

Definition write_sequence (lgname lgpassword : string) (e : edit) : M unit :=
  handshake lgname lgpassword ;;; create_claim_cell e.

Definition notebook_write : M unit :=
  cell_3 ;;; cell_17 ;;; cell_19 ;;; cell_21 ;;; cell_23.

(** The search, likewise. *)
Definition notebook_search : M unit :=
  cell_3 ;;; cell_5.

End Notebook.

Arguments fresh_kernel {Srv} s.
Arguments world : clear implicits.

(** ** What the sequence sends and what it reads from the replies *)

Definition api : string := "https://www.wikidata.org/w/api.php".

Definition login_token_call (sid : nat) : request :=
  {| rq_session := Some sid; rq_method := GET; rq_url := api;
     rq_fields := [("action", JStr "query"); ("format", JStr "json");
                   ("meta", JStr "tokens"); ("type", JStr "login")] |}.

Definition login_call (sid : nat) (lgname lgpassword : string)
    (lgtoken : json) : request :=
  {| rq_session := Some sid; rq_method := POST; rq_url := api;
     rq_fields := [("action", JStr "login"); ("lgname", JStr lgname);
                   ("lgpassword", JStr lgpassword); ("lgtoken", lgtoken);
                   ("format", JStr "json")] |}.

Definition edit_token_call (sid : nat) : request :=
  {| rq_session := Some sid; rq_method := GET; rq_url := api;
     rq_fields := [("action", JStr "query"); ("format", JStr "json");
                   ("meta", JStr "tokens")] |}.

Definition commit_call (sid : nat) (e : edit) (token : json) : request :=
  {| rq_session := Some sid; rq_method := POST; rq_url := api;
     rq_fields := [("action", JStr "wbcreateclaim");
                   ("entity", JStr (entity e)); ("format", JStr "json");
                   ("property", JStr (property e));
                   ("snaktype", JStr (snaktype e));
                   ("summary", JStr (summary e)); ("token", token);
                   ("value", JStr (value e))] |}.

(** [j[k1][k2]...]. *)
Fixpoint path (ks : list string) (j : json) : result json :=
  match ks with
  | [] => Ok j
  | k :: rest =>
      match getitem j k with
      | Ok v => path rest v
      | Raise e => Raise e
      end
  end.

(** What a cell gets out of a reply when it evaluates
    [response.json()[k1][k2]...] on the result of the call. *)
Definition read (ks : list string) (rep : reply) : result json :=
  match rep with
  | NoReply => Raise RequestException
  | Reply r =>
      match json_of r with
      | Ok j => path ks j
      | Raise e => Raise e
      end
  end.

Definition login_token_path : list string := ["query"; "tokens"; "logintoken"].
Definition login_result_path : list string := ["login"; "result"].
Definition edit_token_path : list string := ["query"; "tokens"; "csrftoken"].

(** The service along a list of calls: where it ends up, and each call
    with the reply it got. *)
Fixpoint replay {Srv : Type} (serve : Srv -> request -> Srv * reply)
    (s : Srv) (rqs : list request) : Srv * list (request * reply) :=
  match rqs with
  | [] => (s, [])
  | rq :: rest =>
      let out := serve s rq in
      let tl := replay serve (fst out) rest in
      (fst tl, (rq, snd out) :: snd tl)
  end.

(** ** Test doubles for the remote service *)

Module Double.

(** A fixed sequence of replies, handed out in order whatever is asked;
    nothing comes back once they are used up. *)
Definition scripted (rs : list reply) (_ : request) : list reply * reply :=
  match rs with
  | [] => ([], NoReply)
  | r :: rest => (rest, r)
  end.

(** A service that keeps every call it receives and never answers. *)
Definition journal (seen : list request) (rq : request)
    : list request * reply :=
  (seen ++ [rq], NoReply).

Definition ok (j : json) : reply := Reply {| status := 200; body := Some j |}.

Definition token_doc (kind tok : string) : json :=
  JObj [("batchcomplete", JStr "");
        ("query", JObj [("tokens", JObj [(kind, JStr tok)])])].

Definition login_doc (res : string) : json :=
  JObj [("login", JObj [("result", JStr res)])].

(** The reply the notebook shows under cell 23, without the [mainsnak]. *)
Definition created_doc : json :=
  JObj [("pageinfo", JObj [("lastrevid", JInt 740694614)]);
        ("success", JInt 1);
        ("claim", JObj [("type", JStr "statement");
                        ("id", JStr "Q15397819$98266984-2CCB-40DF-B00F-D8EA56CE1E8A");
                        ("rank", JStr "normal")])].

Definition error_doc (code : string) : json :=
  JObj [("error", JObj [("code", JStr code)])].

End Double.

(** ** The courses a run can take *)

(** The handshake, by the replies it meets: the calls made (each with its
    reply), the lines printed, the value left in [token] if the name was
    assigned, and how the run ends. *)
Inductive handshake_course (sid : nat) (u p : string) :
    list (request * reply) -> list (list shown) -> option json ->
    result unit -> Prop :=
  | no_login_token r1 x :
      read login_token_path r1 = Raise x ->
      handshake_course sid u p
        [(login_token_call sid, r1)]
        [] None (Raise x)
  | no_login_result r1 t1 r2 x :
      read login_token_path r1 = Ok t1 ->
      read login_result_path r2 = Raise x ->
      handshake_course sid u p
        [(login_token_call sid, r1); (login_call sid u p t1, r2)]
        [[ShowVal (JStr "retrieved login token:"); ShowVal t1]]
        (Some t1) (Raise x)
  | no_edit_token r1 t1 r2 res r3 x :
      read login_token_path r1 = Ok t1 ->
      read login_result_path r2 = Ok res ->
      read edit_token_path r3 = Raise x ->
      handshake_course sid u p
        [(login_token_call sid, r1); (login_call sid u p t1, r2);
         (edit_token_call sid, r3)]
        [[ShowVal (JStr "retrieved login token:"); ShowVal t1];
         [ShowVal (JStr "login:"); ShowVal res]]
        (Some t1) (Raise x)
  | shaken r1 t1 r2 res r3 t2 :
      read login_token_path r1 = Ok t1 ->
      read login_result_path r2 = Ok res ->
      read edit_token_path r3 = Ok t2 ->
      handshake_course sid u p
        [(login_token_call sid, r1); (login_call sid u p t1, r2);
         (edit_token_call sid, r3)]
        [[ShowVal (JStr "retrieved login token:"); ShowVal t1];
         [ShowVal (JStr "login:"); ShowVal res];
         [ShowVal (JStr "working token:"); ShowVal t2]]
        (Some t2) (Ok tt).

(** The whole sequence: the handshake, then the commit if the handshake
    completed. *)
Inductive write_course (sid : nat) (u p : string) (e : edit) :
    list (request * reply) -> list (list shown) -> option json ->
    result unit -> Prop :=
  | handshake_failed steps prints tk x :
      handshake_course sid u p steps prints tk (Raise x) ->
      write_course sid u p e steps prints tk (Raise x)
  | commit_unread steps prints t2 r4 x :
      handshake_course sid u p steps prints (Some t2) (Ok tt) ->
      read [] r4 = Raise x ->
      write_course sid u p e
        (steps ++ [(commit_call sid e t2, r4)]) prints (Some t2) (Raise x)
  | committed steps prints t2 r4 j :
      handshake_course sid u p steps prints (Some t2) (Ok tt) ->
      read [] r4 = Ok j ->
      write_course sid u p e
        (steps ++ [(commit_call sid e t2, r4)])
        (prints ++ [[ShowVal j]]) (Some t2) (Ok tt).

(** ** Reading a run *)

(** The calls a run has added to the record. *)
Definition new_calls {Srv : Type} (w w' : world Srv)
    : list (request * reply) :=
  drop (length (calls w)) (calls w').

(** What [response] is bound to after these calls: the last reply that
    came back, or what it was bound to before when none did. *)
Definition response_after (steps : list (request * reply))
    (before : option response) : option response :=
  fold_left
    (fun acc c => match snd c with Reply r => Some r | NoReply => acc end)
    steps before.

Definition action_of (rq : request) : string :=
  match assoc "action" (rq_fields rq) with
  | Some (JStr a) => a
  | _ => EmptyString
  end.



Definition commits (steps : list (request * reply))
    : list (request * reply) :=
  List.filter (fun c => action_is "wbcreateclaim" (fst c)) steps.

Definition logins (steps : list (request * reply))
    : list (request * reply) :=
  List.filter (fun c => action_is "login" (fst c)) steps.

(** The service has answered [Success] to a login sent through session
    [sid]. *)
Definition logged_in (sid : nat) (steps : list (request * reply)) : bool :=
  existsb
    (fun c =>
       action_is "login" (fst c)
       && match rq_session (fst c) with
          | Some s => Nat.eqb s sid
          | None => false
          end
       && match read login_result_path (snd c) with
          | Ok v => is_str "Success" v
          | Raise _ => false
          end)
    steps.



(** [token = v], as an assignment on its own. *)
Definition rebind_token {Srv : Type} (v : json) (w : world Srv) : world Srv :=
  fst (assign_token v w).

(** The line cell 5 prints for a hit with these fields. *)
Definition hit_line (fields : list (string * json)) : option string :=
  match assoc "id" fields with
  | Some (JStr page_id) =>
      let label :=
        match assoc "label" fields with
        | Some (JStr l) => Some l
        | Some _ => None
        | None => Some EmptyString
        end in
      let description :=
        match assoc "description" fields with
        | Some (JStr d) => Some (("(" +:+ d) +:+ ")")
        | Some _ => None
        | None => Some EmptyString
        end in
      match label, description with
      | Some l, Some d => Some ((((page_id +:+ ": ") +:+ l) +:+ " ") +:+ d)
      | _, _ => None
      end
  | _ => None
  end.

(** ** Scripts for concrete runs *)

Import Double.

Definition lkastler : string := "Lkastler@wikidata_zurich".
Definition bot_password : string := "7343er7i5aspf9182s13mp70j8b9tjj3".

(** Login token ["T1"], login [Success], edit token ["T2"], claim
    created. *)
Definition happy_script : list reply :=
  [ok (token_doc "logintoken" "T1"); ok (login_doc "Success");
   ok (token_doc "csrftoken" "T2"); ok created_doc].

(** The bot password is no longer accepted.  The service still hands out
    the token it has for sessions that are not logged in, and turns the
    edit down. *)
Definition failed_login_script : list reply :=
  [ok (token_doc "logintoken" "T1"); ok (login_doc "Failed");
   ok (token_doc "csrftoken" "+\"); ok (error_doc "badtoken")].

(** The same, on a wiki that lets sessions that are not logged in edit. *)
Definition anonymous_script : list reply :=
  [ok (token_doc "logintoken" "T1"); ok (login_doc "Failed");
   ok (token_doc "csrftoken" "+\"); ok created_doc].



Definition happy : world (list reply) := fresh_kernel happy_script.

Definition shaken_hands : world (list reply) :=
  fst (handshake scripted lkastler bot_password happy).

(** The first three hits the notebook shows under cell 5, cut down to the
    fields the cell reads; the third has no description. *)
Definition three_hits : json :=
  JObj [("search",
         JArr [JObj [("id", JStr "Q72"); ("label", JStr "Zürich");
                     ("description",
                      JStr "capital of the canton of Zürich, Switzerland")];
               JObj [("id", JStr "Q11943"); ("label", JStr "canton of Zürich");
                     ("description", JStr "canton of Switzerland")];
               JObj [("id", JStr "Q660732");
                     ("label", JStr "Zürich District")]])].

(** ** The cells that only read *)

(** [len(o)]. *)
Definition len (o : json) : result Z :=
  match o with
  | JArr l => Ok (Z.of_nat (length l))
  | JObj kvs => Ok (Z.of_nat (length kvs))
  | JStr s => Ok (Z.of_nat (length (chars s)))
  | _ => Raise TypeError
  end.

Section Reads.

Context {Srv : Type}.
Variable serve : Srv -> request -> Srv * reply.

Notation "x <- c ;; k" := (bind c (fun x => k))
  (at level 100, c at next level, right associativity).
Notation "c ;;; k" := (bind c (fun _ => k))
  (at level 100, right associativity).

(** Cell 8.  [zurich] is read by this cell only. *)
Definition cell_8 : @M Srv unit :=
  name_requests ;;;
  uri <- name "API_URI" n_API_URI ;;
  response <- send serve GET None uri
    [("action", JStr "wbgetentities"); ("format", JStr "json");
     ("ids", JStr "Q72|P17")] ;;
  assign_response response ;;;
  response <- name "response" n_response ;;
  j <- lift (json_of response) ;;
  entities <- lift (getitem j "entities") ;;
  zurich <- lift (getitem entities "Q72") ;;
  ks <- lift (keys zurich) ;;
  print [ShowVal (JStr "Zurich's fields:"); ShowKeys ks] ;;;
  print [] ;;;
  title <- lift (getitem zurich "title") ;;
  print [ShowVal (JStr "Zurich's Q-Number:"); ShowVal title] ;;;
  labels <- lift (getitem zurich "labels") ;;
  en <- lift (getitem labels "en") ;;
  v <- lift (getitem en "value") ;;
  print [ShowVal (JStr "Zurich's French label:"); ShowVal v] ;;;
  descriptions <- lift (getitem zurich "descriptions") ;;
  en <- lift (getitem descriptions "en") ;;
  v <- lift (getitem en "value") ;;
  print [ShowVal (JStr "Zurich's French description:"); ShowVal v] ;;;
  claims <- lift (getitem zurich "claims") ;;
  ks <- lift (keys claims) ;;
  print [ShowVal (JStr "Claims about Zurich: "); ShowKeys ks].

(** Cell 11.  It makes no request of its own: it parses [response]
    again. *)
Definition cell_11 : @M Srv unit :=
  response <- name "response" n_response ;;
  j <- lift (json_of response) ;;
  entities <- lift (getitem j "entities") ;;
  propery_country <- lift (getitem entities "P17") ;;
  title <- lift (getitem propery_country "title") ;;
  print [ShowVal (JStr "property Country's P-Number:"); ShowVal title] ;;;
  labels <- lift (getitem propery_country "labels") ;;
  en <- lift (getitem labels "en") ;;
  v <- lift (getitem en "value") ;;
  print [ShowVal (JStr "property Country's French label:"); ShowVal v] ;;;
  descriptions <- lift (getitem propery_country "descriptions") ;;
  en <- lift (getitem descriptions "en") ;;
  v <- lift (getitem en "value") ;;
  print [ShowVal (JStr "property Country's French description:");
         ShowVal v] ;;;
  claims <- lift (getitem propery_country "claims") ;;
  ks <- lift (keys claims) ;;
  print [ShowVal (JStr "Claims about property Country: "); ShowKeys ks].

(** Cell 13. *)
Definition cell_13 : @M Srv unit :=
  name_requests ;;;
  uri <- name "API_URI" n_API_URI ;;
  response <- send serve GET None uri
    [("action", JStr "wbgetclaims"); ("entity", JStr "Q72");
     ("format", JStr "json"); ("property", JStr "P31")] ;;
  assign_response response ;;;
  response <- name "response" n_response ;;
  j <- lift (json_of response) ;;
  claims <- lift (getitem j "claims") ;;
  claims_for_P31 <- lift (getitem claims "P31") ;;
  name_requests ;;;
  uri <- name "API_URI" n_API_URI ;;
  response <- send serve GET None uri
    [("action", JStr "wbgetclaims"); ("entity", JStr "Q72");
     ("format", JStr "json"); ("property", JStr "P31");
     ("rank", JStr "preferred")] ;;
  assign_response response ;;;
  response <- name "response" n_response ;;
  j <- lift (json_of response) ;;
  claims <- lift (getitem j "claims") ;;
  preferred_claims_for_P31 <- lift (getitem claims "P31") ;;
  n <- lift (len claims_for_P31) ;;
  print [ShowVal (JStr "number of claims for Q72's P31:");
         ShowVal (JInt n)] ;;;
  n <- lift (len preferred_claims_for_P31) ;;
  print [ShowVal (JStr "number of preferred claims for Q72's P31:");
         ShowVal (JInt n)].


(** Cell 17 run a second time. *)
Definition cell_17_again : @M Srv unit :=
  cell_3 ;;; cell_17 serve ;;; cell_17 serve.

End Reads.

(** The requests of the cells that only read. *)
Definition search_call : request :=
  {| rq_session := None; rq_method := GET; rq_url := api;
     rq_fields := [("action", JStr "wbsearchentities");
                   ("format", JStr "json"); ("language", JStr "de");
                   ("type", JStr "item"); ("search", JStr "Zürich")] |}.

Definition entities_call : request :=
  {| rq_session := None; rq_method := GET; rq_url := api;
     rq_fields := [("action", JStr "wbgetentities"); ("format", JStr "json");
                   ("ids", JStr "Q72|P17")] |}.

Definition claims_call : request :=
  {| rq_session := None; rq_method := GET; rq_url := api;
     rq_fields := [("action", JStr "wbgetclaims"); ("entity", JStr "Q72");
                   ("format", JStr "json"); ("property", JStr "P31")] |}.

Definition preferred_claims_call : request :=
  {| rq_session := None; rq_method := GET; rq_url := api;
     rq_fields := [("action", JStr "wbgetclaims"); ("entity", JStr "Q72");
                   ("format", JStr "json"); ("property", JStr "P31");
                   ("rank", JStr "preferred")] |}.

(** Cell 3 has run: [requests] is imported and [API_URI] is the
    notebook's. *)
Definition ready {Srv : Type} (w : world Srv) : Prop :=
  n_requests (globals w) = true /\ n_API_URI (globals w) = Some api.

(** The lines a run has added to the output. *)
Definition new_lines {Srv : Type} (w w' : world Srv) : list (list shown) :=
  drop (length (stdout w)) (stdout w').

(** The line cell 5 prints for a hit, when it can print one. *)
Definition hit_text (hit : json) : option string :=
  match hit with
  | JObj fields => hit_line fields
  | _ => None
  end.

Definition text_line (s : string) : list shown := [ShowVal (JStr s)].



(** ** More scripts *)

(** A kernel in which cell 3 has run, facing a scripted service. *)
Definition ready_kernel (script : list reply) : world (list reply) :=
  fst (cell_3 (fresh_kernel script)).

Definition entity_doc (title : string) (labels : list (string * json))
    (description : string) : json :=
  JObj [("title", JStr title);
        ("labels", JObj labels);
        ("descriptions", JObj [("en", JObj [("value", JStr description)])]);
        ("claims", JObj [("P31", JArr []); ("P17", JArr [])])].

Definition english (label : string) : list (string * json) :=
  [("en", JObj [("language", JStr "en"); ("value", JStr label)])].

Definition entities_doc (q72_labels : list (string * json)) : json :=
  JObj [("entities",
         JObj [("Q72",
                entity_doc "Q72" q72_labels
                  "capital of the canton of Zürich, Switzerland");
               ("P17",
                entity_doc "Property:P17" (english "country")
                  "sovereign state of this item")])].

Definition claims_doc (n : nat) : json :=
  JObj [("claims",
         JObj [("P31",
                JArr (replicate n (JObj [("type", JStr "statement")])))])].

(** Two hits, the second without an ['id'], and a third behind it. *)
Definition broken_hits : json :=
  JObj [("search",
         JArr [JObj [("id", JStr "Q72"); ("label", JStr "Zürich")];
               JObj [("label", JStr "canton of Zürich")];
               JObj [("id", JStr "Q660732")]])].

(** ** Running the cells *)

Section Runs.

Context {Srv : Type}.
Variable serve : Srv -> request -> Srv * reply.

#[local] Arguments getitem : simpl never.

Ltac unfold_cells :=
  unfold write_sequence, handshake, cell_3, cell_17, login_cell, cell_21,
    create_claim_cell;
  unfold bind, ret, lift, name, name_requests, send, print, import_requests,
    assign_API_URI, assign_session, assign_response, assign_token,
    with_globals, new_Session;
  cbn.

(** Case analysis on the next reply, then on each subscript. *)
Ltac on_reply :=
  match goal with
  | |- context [serve ?s ?rq] =>
      let E := fresh "E" in
      destruct (serve s rq) as [? [|[? [?|]]]] eqn:E; cbn
  end.

Ltac on_item :=
  match goal with
  | |- context [getitem ?j ?k] =>
      let G := fresh "G" in
      destruct (getitem j k) eqn:G; cbn
  end.

Ltac use_items :=
  cbn; repeat match goal with
              | H : getitem _ _ = _ |- _ => rewrite H; cbn
              end.

Ltac use_replies :=
  unfold login_token_call, login_call, edit_token_call, commit_call, api;
  cbn; repeat match goal with
              | H : serve _ _ = _ |- _ => rewrite H; cbn
              end.

Ltac tidy_lists := rewrite <- ?app_assoc, ?app_nil_r; cbn.

Lemma handshake_runs (w : world Srv) (u p : string) :
  exists steps prints tk,
    handshake_course (next_id w) u p steps prints tk
      (snd (handshake serve u p w)) /\
    calls (fst (handshake serve u p w)) = calls w ++ steps /\
    stdout (fst (handshake serve u p w)) = stdout w ++ prints /\
    replay serve (remote w) (map fst steps)
      = (remote (fst (handshake serve u p w)), steps) /\
    next_id (fst (handshake serve u p w)) = S (next_id w) /\
    n_session (globals (fst (handshake serve u p w))) = Some (next_id w) /\
    n_API_URI (globals (fst (handshake serve u p w))) = Some api /\
    n_token (globals (fst (handshake serve u p w)))
      = match tk with Some t => Some t | None => n_token (globals w) end /\
    n_requests (globals (fst (handshake serve u p w))) = true /\
    n_response (globals (fst (handshake serve u p w)))
      = response_after steps (n_response (globals w)).
Proof.
  unfold_cells.
  repeat first [on_item | on_reply].
  all: tidy_lists.
  all: eexists _, _, _.
  all: split; [| split; [reflexivity |]];
    [ econstructor; use_items; reflexivity | ].
  all: split; [ tidy_lists; reflexivity | ].
  all: split; [ use_replies; reflexivity | ].
  all: repeat split; reflexivity.
Qed.

Lemma create_claim_cell_runs (w : world Srv) (e : edit) (sid : nat) (t : json) :
  n_session (globals w) = Some sid ->
  n_API_URI (globals w) = Some api ->
  n_token (globals w) = Some t ->
  let out := serve (remote w) (commit_call sid e t) in
  let w' := fst (create_claim_cell serve e w) in
  snd (create_claim_cell serve e w)
    = match read [] (snd out) with Ok _ => Ok tt | Raise x => Raise x end /\
  remote w' = fst out /\
  calls w' = calls w ++ [(commit_call sid e t, snd out)] /\
  stdout w'
    = stdout w ++ match read [] (snd out) with
                  | Ok j => [[ShowVal j]]
                  | Raise _ => []
                  end /\
  next_id w' = next_id w /\
  n_session (globals w') = Some sid /\
  n_API_URI (globals w') = Some api /\
  n_token (globals w') = Some t.
Proof.
  intros Hs Hu Ht. unfold_cells. rewrite Hs, Hu, Ht. cbn.
  unfold commit_call, api.
  destruct (serve (remote w) _) as [s1 [|[st [j|]]]]; cbn;
    rewrite ?app_nil_r; repeat split; assumption.
Qed.

Lemma replay_app (s : Srv) (l1 l2 : list request) :
  replay serve s (l1 ++ l2)
    = (fst (replay serve (fst (replay serve s l1)) l2),
       snd (replay serve s l1)
         ++ snd (replay serve (fst (replay serve s l1)) l2)).
Proof.
  revert s. induction l1 as [|rq l1 IH]; intros s; cbn.
  - now destruct (replay serve s l2).
  - rewrite IH. reflexivity.
Qed.

Lemma write_sequence_runs (w : world Srv) (u p : string) (e : edit) :
  exists steps prints tk,
    write_course (next_id w) u p e steps prints tk
      (snd (write_sequence serve u p e w)) /\
    calls (fst (write_sequence serve u p e w)) = calls w ++ steps /\
    stdout (fst (write_sequence serve u p e w)) = stdout w ++ prints /\
    replay serve (remote w) (map fst steps)
      = (remote (fst (write_sequence serve u p e w)), steps) /\
    n_session (globals (fst (write_sequence serve u p e w)))
      = Some (next_id w) /\
    n_token (globals (fst (write_sequence serve u p e w)))
      = match tk with Some t => Some t | None => n_token (globals w) end.
Proof.
  destruct (handshake_runs w u p)
    as (steps & prints & tk & Hc & Hcalls & Hout & Hrep & _ & Hs & Hu & Ht & _).
  unfold write_sequence, bind.
  destruct (handshake serve u p w) as [w1 [[]|x]]; cbn in *.
  - assert (exists t2, tk = Some t2) as [t2 ->] by (inversion Hc; eauto).
    destruct (create_claim_cell_runs w1 e _ _ Hs Hu Ht)
      as (Hr & Hrem & Hcalls' & Hout' & _ & Hs' & _ & Ht').
    destruct (create_claim_cell serve e w1) as [w2 r2]; cbn in *.
    assert (replay serve (remote w) (map fst steps ++ [commit_call (next_id w) e t2])
            = (remote w2, steps ++ [(commit_call (next_id w) e t2,
                 snd (serve (remote w1) (commit_call (next_id w) e t2)))]))
      as Hrep'.
    { rewrite replay_app, Hrep. cbn. now rewrite Hrem. }
    destruct (read [] (snd (serve (remote w1) _))) as [j|x] eqn:Hread.
    + exists (steps ++ [(commit_call (next_id w) e t2,
                snd (serve (remote w1) (commit_call (next_id w) e t2)))]),
        (prints ++ [[ShowVal j]]), (Some t2).
      rewrite Hr, Hcalls', Hout', Hcalls, Hout, <- !app_assoc.
      rewrite map_app. cbn.
      repeat split; try assumption. now apply committed.
    + exists (steps ++ [(commit_call (next_id w) e t2,
                snd (serve (remote w1) (commit_call (next_id w) e t2)))]),
        prints, (Some t2).
      rewrite Hr, Hcalls', Hout', Hcalls, Hout, <- !app_assoc, app_nil_r.
      rewrite map_app. cbn.
      repeat split; try assumption. now apply commit_unread.
  - exists steps, prints, tk.
    repeat split; try assumption. now apply handshake_failed.
Qed.


(** ** The handshake *)

Ltac name_calls :=
  unfold login_token_call, login_call, edit_token_call, commit_call, api in *.

(** Bring what is known about the service and about the replies to bear
    on a replayed list of calls. *)
Ltac agree :=
  name_calls; cbn in *; simplify_eq;
  repeat first
    [ match goal with
      | H : read ?p ?r = _, H' : read ?p ?r = _ |- _ =>
          rewrite H in H'; simplify_eq
      end
    | match goal with
      | H : serve ?s ?rq = _, H' : context [serve ?s ?rq] |- _ =>
          rewrite H in H'; cbn in H'; simplify_eq
      end
    | match goal with
      | H : serve ?s ?rq = _ |- context [serve ?s ?rq] =>
          rewrite H; cbn
      end ].

Lemma new_calls_app (w w' : world Srv) (steps : list (request * reply)) :
  calls w' = calls w ++ steps -> new_calls w w' = steps.
Proof. unfold new_calls. intros ->. apply drop_app_length. Qed.

(** C1.  When the service answers the login-token request with a login
    token, the login with [Success] and the edit-token request with an edit
    token, the handshake completes having made exactly these three calls in
    this order, [token] holds the edit token read from the third reply, and
    the commit cell run next sends that token. *)
Theorem handshake_three_calls (w : world Srv) (u p : string)
    (s1 s2 s3 : Srv) (r1 r2 r3 : reply) (t1 t2 : json) :
  serve (remote w) (login_token_call (next_id w)) = (s1, r1) ->
  read login_token_path r1 = Ok t1 ->
  serve s1 (login_call (next_id w) u p t1) = (s2, r2) ->
  read login_result_path r2 = Ok (JStr "Success") ->
  serve s2 (edit_token_call (next_id w)) = (s3, r3) ->
  read edit_token_path r3 = Ok t2 ->
  let w' := fst (handshake serve u p w) in
  snd (handshake serve u p w) = Ok tt /\
  new_calls w w'
    = [(login_token_call (next_id w), r1);
       (login_call (next_id w) u p t1, r2);
       (edit_token_call (next_id w), r3)] /\
  n_token (globals w') = Some t2 /\
  forall e, map fst (new_calls w' (fst (create_claim_cell serve e w')))
            = [commit_call (next_id w) e t2].
Proof.
  intros H1 R1 H2 R2 H3 R3.
  destruct (handshake_runs w u p)
    as (steps & prints & tk & Hc & Hcalls & _ & Hrep & _ & Hs & Hu & Ht & _).
  destruct (handshake serve u p w) as [w' r]; cbn [fst snd] in *.
  rewrite (new_calls_app _ _ _ Hcalls). clear Hcalls.
  inversion Hc; subst; agree.
  repeat split; try assumption.
  intros e.
  destruct (create_claim_cell_runs w' e _ _ Hs Hu Ht) as (_ & _ & Hcalls & _).
  now rewrite (new_calls_app _ _ _ Hcalls).
Qed.

(** ** The whole sequence *)

(** Every course the sequence can take, one goal each, with the new calls
    spelled out. *)
Ltac courses w u p e :=
  let steps := fresh "steps" in
  let prints := fresh "prints" in
  let tk := fresh "tk" in
  let Hc := fresh "Hc" in
  let Hh := fresh "Hh" in
  let Hcalls := fresh "Hcalls" in
  let Hout := fresh "Hout" in
  let Hrep := fresh "Hrep" in
  let Hs := fresh "Hs" in
  let Ht := fresh "Ht" in
  let w' := fresh "w'" in
  let r := fresh "r" in
  destruct (write_sequence_runs w u p e)
    as (steps & prints & tk & Hc & Hcalls & Hout & Hrep & Hs & Ht);
  destruct (write_sequence serve u p e w) as [w' r]; cbn [fst snd] in *;
  rewrite ?(new_calls_app _ _ _ Hcalls);
  inversion Hc as [? ? ? ? Hh|? ? ? ? ? Hh|? ? ? ? ? Hh]; subst;
  inversion Hh; subst; cbn [app] in *.

(** C6.  In every run the commit request is sent at most once, and when it
    is sent no call follows it: whatever comes back, or fails to, it is
    not sent again. *)
Theorem commit_at_most_once (w : world Srv) (u p : string) (e : edit) :
  let steps := new_calls w (fst (write_sequence serve u p e w)) in
  length (commits steps) <= 1 /\ commits (removelast steps) = [].
Proof.
  cbn zeta. courses w u p e; cbn; split; (lia || reflexivity).
Qed.

(** C4.  Whatever the credentials, a login request in a run is the second
    call of the run: the first call is the login-token request, made
    through the same session, its reply has yielded a login token, and
    that token is the [lgtoken] the login request carries. *)
Theorem login_follows_login_token (w : world Srv) (u p : string) (e : edit)
    (i : nat) (rq : request) (rep : reply) :
  let steps := new_calls w (fst (write_sequence serve u p e w)) in
  steps !! i = Some (rq, rep) ->
  action_is "login" rq = true ->
  exists r1 t1,
    i = 1 /\
    steps !! 0 = Some (login_token_call (next_id w), r1) /\
    read login_token_path r1 = Ok t1 /\
    rq = login_call (next_id w) u p t1 /\
    rq_session rq = rq_session (login_token_call (next_id w)).
Proof.
  cbn zeta. courses w u p e; intros Hi Ha.
  all: destruct i as [|[|[|[|i]]]]; cbn in Hi; simplify_eq; cbn in Ha;
    try discriminate.
  all: eexists _, _; repeat split; eassumption.
Qed.

(** C3, as the code has it.  A commit request in a run is the fourth and
    last call of the run.  Before it, through the same session object, the
    login token was fetched, the login request was sent and answered, and
    the edit token was fetched; the token the commit request carries is
    the one read from that edit-token reply.  What the login answered is
    not looked at. *)
Theorem commit_token_from_same_session (w : world Srv) (u p : string)
    (e : edit) (i : nat) (rq : request) (rep : reply) :
  let steps := new_calls w (fst (write_sequence serve u p e w)) in
  steps !! i = Some (rq, rep) ->
  action_is "wbcreateclaim" rq = true ->
  exists r1 t1 r2 res r3 t2,
    steps = [(login_token_call (next_id w), r1);
             (login_call (next_id w) u p t1, r2);
             (edit_token_call (next_id w), r3);
             (rq, rep)] /\
    read login_result_path r2 = Ok res /\
    read edit_token_path r3 = Ok t2 /\
    rq = commit_call (next_id w) e t2 /\
    Forall (fun c => rq_session (fst c) = Some (next_id w)) steps.
Proof.
  cbn zeta. courses w u p e; intros Hi Ha.
  all: destruct i as [|[|[|[|i]]]]; cbn in Hi; simplify_eq; cbn in Ha;
    try discriminate.
  all: eexists _, _, _, _, _, _; repeat split; try eassumption.
  all: repeat constructor.
Qed.

(** C2, as the code has it.  When the login is answered with a result
    other than [Success], the result is printed, the login request is not
    sent again, and the run goes on: the next call is the edit-token
    request.  When the reply to that request yields a token the commit
    request follows, carrying that token, and is the last call; when it
    does not, the run ends there with what reading that reply raises. *)
Theorem failed_login_goes_on (w : world Srv) (u p : string) (e : edit)
    (s1 s2 : Srv) (r1 r2 : reply) (t1 res : json) :
  serve (remote w) (login_token_call (next_id w)) = (s1, r1) ->
  read login_token_path r1 = Ok t1 ->
  serve s1 (login_call (next_id w) u p t1) = (s2, r2) ->
  read login_result_path r2 = Ok res ->
  res <> JStr "Success" ->
  let w' := fst (write_sequence serve u p e w) in
  let steps := new_calls w w' in
  let o3 := serve s2 (edit_token_call (next_id w)) in
  take 3 steps
    = [(login_token_call (next_id w), r1);
       (login_call (next_id w) u p t1, r2);
       (edit_token_call (next_id w),
        snd (serve s2 (edit_token_call (next_id w))))] /\
  logins steps = [(login_call (next_id w) u p t1, r2)] /\
  In [ShowVal (JStr "login:"); ShowVal res] (stdout w') /\
  match read edit_token_path (snd o3) with
  | Ok t2 =>
      steps = [(login_token_call (next_id w), r1);
               (login_call (next_id w) u p t1, r2);
               (edit_token_call (next_id w), snd o3);
               (commit_call (next_id w) e t2,
                snd (serve (fst o3) (commit_call (next_id w) e t2)))]
  | Raise x =>
      steps = [(login_token_call (next_id w), r1);
               (login_call (next_id w) u p t1, r2);
               (edit_token_call (next_id w), snd o3)] /\
      snd (write_sequence serve u p e w) = Raise x
  end.
Proof.
  intros H1 R1 H2 R2 _. cbn zeta.
  courses w u p e; agree.
  all: split; [reflexivity|]. all: split; [reflexivity|].
  all: split; [rewrite Hout; apply in_or_app; right; cbn; auto|].
  all: repeat match goal with
              | H : read _ _ = _ |- _ => rewrite H; cbn
              end.
  all: repeat split.
Qed.


(** C7.  Running the commit cell twice with the same names bound sends
    two write requests, equal in every field and so with the same edit
    token; the service receives the second after the first.  Nothing on
    this side remembers that the request was sent before. *)
Theorem commit_twice_sends_twice (w : world Srv) (e : edit) (sid : nat)
    (t : json) :
  n_session (globals w) = Some sid ->
  n_API_URI (globals w) = Some api ->
  n_token (globals w) = Some t ->
  let w1 := fst (create_claim_cell serve e w) in
  let w2 := fst (create_claim_cell serve e w1) in
  let o1 := serve (remote w) (commit_call sid e t) in
  let o2 := serve (fst o1) (commit_call sid e t) in
  new_calls w w2
    = [(commit_call sid e t, snd o1); (commit_call sid e t, snd o2)] /\
  remote w2 = fst o2 /\
  length (commits (new_calls w w2)) = 2.
Proof.
  intros Hs Hu Ht. cbn zeta.
  destruct (create_claim_cell_runs w e _ _ Hs Hu Ht)
    as (_ & Hrem & Hcalls & _ & _ & Hs1 & Hu1 & Ht1).
  destruct (create_claim_cell_runs _ e _ _ Hs1 Hu1 Ht1)
    as (_ & Hrem2 & Hcalls2 & _).
  rewrite Hcalls, <- app_assoc in Hcalls2. cbn in Hcalls2.
  rewrite (new_calls_app _ _ _ Hcalls2), Hrem2, Hrem.
  repeat split.
Qed.



(** C9.  When a run makes a fourth call, that call is the commit; the
    call just before it is the edit-token request, and the [token] field
    of the commit is the [csrftoken] read from the reply to that request.
    At that point [token] is bound to that value and [response] to that
    reply, and no other name holds anything from the service: the login
    token is not kept.  A completed cell 21 leaves the world the same
    whatever [token] held before it. *)
Theorem commit_sends_edit_token (w : world Srv) (u p : string) (e : edit)
    (rq : request) (rep : reply) :
  let steps := new_calls w (fst (write_sequence serve u p e w)) in
  steps !! 3 = Some (rq, rep) ->
  (exists r3 t2,
     steps !! 2 = Some (edit_token_call (next_id w), Reply r3) /\
     read edit_token_path (Reply r3) = Ok t2 /\
     rq = commit_call (next_id w) e t2 /\
     assoc "token" (rq_fields rq) = Some t2 /\
     globals (fst (handshake serve u p w))
       = {| n_requests := true; n_API_URI := Some api;
            n_session := Some (next_id w); n_response := Some r3;
            n_token := Some t2 |}) /\
  (forall (w0 : world Srv) (old : json),
     snd (cell_21 serve w0) = Ok tt ->
     cell_21 serve (rebind_token old w0) = cell_21 serve w0).
Proof.
  cbn zeta. intros Hfourth. split.
  - revert Hfourth. unfold write_sequence, bind.
    destruct (handshake_runs w u p)
      as (steps & prints & tk & Hc & Hcalls & _ & _ & _ & Hs & Hu & Ht
          & Hq & Hr).
    destruct (handshake serve u p w) as [w1 [[]|x]]; cbn [fst snd] in *.
    + inversion Hc as [| | |r1 t1 r2 res r3 t2 R1 R2 R3]; subst.
      destruct (create_claim_cell_runs w1 e _ _ Hs Hu Ht)
        as (_ & _ & Hcalls' & _).
      rewrite Hcalls, <- app_assoc in Hcalls'.
      rewrite (new_calls_app _ _ _ Hcalls'). cbn. intros [= <- <-].
      destruct r3 as [|r3]; [discriminate|].
      exists r3, t2. repeat split; try assumption.
      destruct w1 as [? ? ? ? []]; cbn in *. congruence.
    + rewrite (new_calls_app _ _ _ Hcalls).
      inversion Hc; subst; discriminate.
  - clear. intros [rem cs out nid [imp [uri|] [sid|] resp tok]] old;
      unfold rebind_token; unfold_cells; try discriminate.
    on_reply; try discriminate.
    repeat on_item; (discriminate || reflexivity).
Qed.

Lemma line_without_label (s : string) :
  (((s +:+ ": ") +:+ "") +:+ " ") +:+ "" = s +:+ ":  ".
Proof.
  induction s as [|c s IH]; [reflexivity|].
  change (String c ((((s +:+ ": ") +:+ "") +:+ " ") +:+ "")
          = String c (s +:+ ":  ")).
  now rewrite IH.
Qed.

(** C10.  For a search hit that has an ['id'], printing its line never
    fails on a key.  When the fields that are there are text the line is
    printed; with neither ['label'] nor ['description'] it is the id, a
    colon and two spaces: the empty label between them and nothing after
    them. *)
Theorem show_hit_total (w : world Srv) (fields : list (string * json)) :
  has_key "id" fields = true ->
  (forall k, snd (show_hit (JObj fields) w) <> Raise (KeyError k)) /\
  (forall line,
     hit_line fields = Some line ->
     show_hit (JObj fields) w = print [ShowVal (JStr line)] w) /\
  (forall page_id,
     assoc "id" fields = Some (JStr page_id) ->
     has_key "label" fields = false ->
     has_key "description" fields = false ->
     show_hit (JObj fields) w
       = print [ShowVal (JStr (page_id +:+ ":  "))] w).
Proof.
  unfold has_key, hit_line, show_hit, bind, lift, ret, contains, getitem,
    has_key.
  intros Hid.
  destruct (assoc "id" fields) as [vi|]; [clear Hid | discriminate].
  destruct (assoc "label" fields) as [vl|];
    destruct (assoc "description" fields) as [vd|].
  all: repeat split.
  all: try (intros k; destruct vi; try destruct vl; try destruct vd;
            cbn; discriminate).
  all: try (intros line Hl; destruct vi; try destruct vl; try destruct vd;
            cbn in *; congruence).
  all: try (intros page_id Hp; intros; simplify_eq; discriminate).
  intros page_id Hp _ _. simplify_eq. cbn.
  now rewrite line_without_label.
Qed.

End Runs.

(** ** Concrete runs *)

Example notebook_write_happy :
  snd (notebook_write scripted happy) = Ok tt /\
  map (fun c => action_of (fst c)) (calls (fst (notebook_write scripted happy)))
    = ["query"; "login"; "query"; "wbcreateclaim"] /\
  stdout (fst (notebook_write scripted happy))
    = [[ShowVal (JStr "retrieved login token:"); ShowVal (JStr "T1")];
       [ShowVal (JStr "login:"); ShowVal (JStr "Success")];
       [ShowVal (JStr "working token:"); ShowVal (JStr "T2")];
       [ShowVal created_doc]].
Proof. repeat split. Qed.

Example cell_5_prints_three_hits :
  let run := notebook_search scripted (fresh_kernel [ok three_hits]) in
  snd run = Ok tt /\
  stdout (fst run)
    = [[ShowVal (JStr "fields of a search hit:");
        ShowKeys ["id"; "label"; "description"]];
       [];
       [ShowVal (JStr "Q72: Zürich (capital of the canton of Zürich, Switzerland)")];
       [ShowVal (JStr "Q11943: canton of Zürich (canton of Switzerland)")];
       [ShowVal (JStr "Q660732: Zürich District ")]].
Proof. repeat split. Qed.

(** No hit at all: the cell fails on [search_results[0]]. *)
Example cell_5_no_hit :
  snd (notebook_search scripted
         (fresh_kernel [ok (JObj [("search", JArr [])])]))
  = Raise IndexError.
Proof. reflexivity. Qed.

(** A service that keeps what it receives ends up with both writes. *)
Example journal_keeps_both_writes :
  let w := fst (handshake journal lkastler bot_password (fresh_kernel [])) in
  snd (handshake journal lkastler bot_password (fresh_kernel []))
    = Raise RequestException /\
  remote (fst (cell_23 journal (fst (cell_23 journal
            (rebind_token (JStr "T2") w)))))
    = [login_token_call 0;
       commit_call 0 sandbox_edit (JStr "T2");
       commit_call 0 sandbox_edit (JStr "T2")].
Proof. repeat split. Qed.

(** ** The statements above at concrete runs *)

(** The handshake theorem on the happy script. *)
Lemma handshake_three_calls_witness :
  read login_result_path (ok (login_doc "Success")) = Ok (JStr "Success") /\
  snd (handshake scripted lkastler bot_password happy) = Ok tt /\
  new_calls happy shaken_hands
    = [(login_token_call 0, ok (token_doc "logintoken" "T1"));
       (login_call 0 lkastler bot_password (JStr "T1"),
        ok (login_doc "Success"));
       (edit_token_call 0, ok (token_doc "csrftoken" "T2"))] /\
  n_token (globals shaken_hands) = Some (JStr "T2") /\
  forall e,
    map fst (new_calls shaken_hands
               (fst (create_claim_cell scripted e shaken_hands)))
    = [commit_call 0 e (JStr "T2")].
Proof.
  split; [reflexivity|].
  apply (handshake_three_calls scripted happy lkastler bot_password
           (tl happy_script) (tl (tl happy_script)) (tl (tl (tl happy_script)))
           (ok (token_doc "logintoken" "T1")) (ok (login_doc "Success"))
           (ok (token_doc "csrftoken" "T2")) (JStr "T1") (JStr "T2"));
    reflexivity.
Defined.

(** C2 as the specification states it fails here: the login is answered
    [Failed], and the run goes on with two more calls, the edit-token
    request and the commit, and completes. *)
Lemma failed_login_does_not_halt :
  let w := fresh_kernel failed_login_script in
  let run := notebook_write scripted w in
  read login_result_path (ok (login_doc "Failed")) = Ok (JStr "Failed") /\
  new_calls w (fst run)
    = [(login_token_call 0, ok (token_doc "logintoken" "T1"));
       (login_call 0 lkastler bot_password (JStr "T1"),
        ok (login_doc "Failed"));
       (edit_token_call 0, ok (token_doc "csrftoken" "+\"));
       (commit_call 0 sandbox_edit (JStr "+\"), ok (error_doc "badtoken"))] /\
  length (drop 2 (new_calls w (fst run))) = 2 /\
  snd run = Ok tt.
Proof. repeat split. Qed.

(** The same run, as the theorem on failed logins describes it. *)
Lemma failed_login_goes_on_witness :
  let w := fresh_kernel failed_login_script in
  let w' := fst (write_sequence scripted lkastler bot_password sandbox_edit w) in
  JStr "Failed" <> JStr "Success" /\
  take 3 (new_calls w w')
    = [(login_token_call 0, ok (token_doc "logintoken" "T1"));
       (login_call 0 lkastler bot_password (JStr "T1"),
        ok (login_doc "Failed"));
       (edit_token_call 0, ok (token_doc "csrftoken" "+\"))] /\
  logins (new_calls w w')
    = [(login_call 0 lkastler bot_password (JStr "T1"),
        ok (login_doc "Failed"))] /\
  In [ShowVal (JStr "login:"); ShowVal (JStr "Failed")] (stdout w') /\
  new_calls w w'
    = [(login_token_call 0, ok (token_doc "logintoken" "T1"));
       (login_call 0 lkastler bot_password (JStr "T1"),
        ok (login_doc "Failed"));
       (edit_token_call 0, ok (token_doc "csrftoken" "+\"));
       (commit_call 0 sandbox_edit (JStr "+\"), ok (error_doc "badtoken"))].
Proof.
  split; [discriminate|].
  exact (failed_login_goes_on scripted (fresh_kernel failed_login_script)
           lkastler bot_password sandbox_edit
           (tl failed_login_script) (tl (tl failed_login_script))
           (ok (token_doc "logintoken" "T1")) (ok (login_doc "Failed"))
           (JStr "T1") (JStr "Failed")
           eq_refl eq_refl eq_refl eq_refl
           (fun H : JStr "Failed" = JStr "Success" =>
              eq_ind (JStr "Failed")
                (fun v => match v with
                          | JStr (String "F"%char _) => True
                          | _ => False
                          end) I _ H)).
Defined.

(** C3 as the specification states it fails here: the only login of the
    session is answered [Failed], so the session is not authenticated, and
    the commit is sent through it all the same. *)
Lemma commit_without_authenticated_session :
  let w := fresh_kernel anonymous_script in
  let steps := new_calls w (fst (notebook_write scripted w)) in
  logged_in 0 steps = false /\
  logins steps
    = [(login_call 0 lkastler bot_password (JStr "T1"),
        ok (login_doc "Failed"))] /\
  commits steps
    = [(commit_call 0 sandbox_edit (JStr "+\"), ok created_doc)].
Proof. repeat split. Qed.

(** What does hold of that run: one session, and the commit carries the
    token the edit-token query returned. *)
Lemma commit_token_from_same_session_witness :
  let w := fresh_kernel anonymous_script in
  let steps :=
    new_calls w
      (fst (write_sequence scripted lkastler bot_password sandbox_edit w)) in
  steps !! 3 = Some (commit_call 0 sandbox_edit (JStr "+\"), ok created_doc) /\
  exists r1 t1 r2 res r3 t2,
    steps = [(login_token_call 0, r1);
             (login_call 0 lkastler bot_password t1, r2);
             (edit_token_call 0, r3);
             (commit_call 0 sandbox_edit (JStr "+\"), ok created_doc)] /\
    read login_result_path r2 = Ok res /\
    read edit_token_path r3 = Ok t2 /\
    commit_call 0 sandbox_edit (JStr "+\") = commit_call 0 sandbox_edit t2 /\
    Forall (fun c => rq_session (fst c) = Some 0) steps.
Proof.
  split; [reflexivity|].
  apply (commit_token_from_same_session scripted
           (fresh_kernel anonymous_script) lkastler bot_password sandbox_edit
           3 (commit_call 0 sandbox_edit (JStr "+\")) (ok created_doc));
    reflexivity.
Defined.

(** The login of the happy run. *)
Lemma login_follows_login_token_witness :
  let steps :=
    new_calls happy
      (fst (write_sequence scripted lkastler bot_password sandbox_edit happy)) in
  action_is "login" (login_call 0 lkastler bot_password (JStr "T1")) = true /\
  exists r1 t1,
    1 = 1 /\
    steps !! 0 = Some (login_token_call 0, r1) /\
    read login_token_path r1 = Ok t1 /\
    login_call 0 lkastler bot_password (JStr "T1")
      = login_call 0 lkastler bot_password t1 /\
    rq_session (login_call 0 lkastler bot_password (JStr "T1"))
      = rq_session (login_token_call 0).
Proof.
  split; [reflexivity|].
  apply (login_follows_login_token scripted happy lkastler bot_password
           sandbox_edit 1 (login_call 0 lkastler bot_password (JStr "T1"))
           (ok (login_doc "Success")));
    reflexivity.
Defined.




(** The commit cell run twice after that handshake; the script has one
    reply left, so the second request gets none. *)
Lemma commit_twice_sends_twice_witness :
  let w1 := fst (create_claim_cell scripted sandbox_edit shaken_hands) in
  let w2 := fst (create_claim_cell scripted sandbox_edit w1) in
  n_token (globals shaken_hands) = Some (JStr "T2") /\
  new_calls shaken_hands w2
    = [(commit_call 0 sandbox_edit (JStr "T2"), ok created_doc);
       (commit_call 0 sandbox_edit (JStr "T2"), NoReply)] /\
  remote w2 = [] /\
  length (commits (new_calls shaken_hands w2)) = 2.
Proof.
  split; [reflexivity|].
  apply (commit_twice_sends_twice scripted shaken_hands sandbox_edit 0
           (JStr "T2"));
    reflexivity.
Defined.

(** The commit of the happy run carries ["T2"]. *)
Lemma commit_sends_edit_token_witness :
  let steps :=
    new_calls happy
      (fst (write_sequence scripted lkastler bot_password sandbox_edit happy)) in
  steps !! 3 = Some (commit_call 0 sandbox_edit (JStr "T2"), ok created_doc) /\
  (exists r3 t2,
     steps !! 2 = Some (edit_token_call 0, Reply r3) /\
     read edit_token_path (Reply r3) = Ok t2 /\
     commit_call 0 sandbox_edit (JStr "T2") = commit_call 0 sandbox_edit t2 /\
     assoc "token" (rq_fields (commit_call 0 sandbox_edit (JStr "T2")))
       = Some t2 /\
     globals (fst (handshake scripted lkastler bot_password happy))
       = {| n_requests := true; n_API_URI := Some api;
            n_session := Some 0; n_response := Some r3;
            n_token := Some t2 |}) /\
  (forall (w0 : world (list reply)) (old : json),
     snd (cell_21 scripted w0) = Ok tt ->
     cell_21 scripted (rebind_token old w0) = cell_21 scripted w0).
Proof.
  split; [reflexivity|].
  apply (commit_sends_edit_token scripted happy lkastler bot_password
           sandbox_edit (commit_call 0 sandbox_edit (JStr "T2"))
           (ok created_doc));
    reflexivity.
Defined.

(** A hit with neither label nor description. *)
Lemma show_hit_total_witness :
  let fields := [("id", JStr "Q660732"); ("pageid", JInt 620635)] in
  let w := fresh_kernel tt in
  has_key "id" fields = true /\
  (forall k, snd (show_hit (JObj fields) w) <> Raise (KeyError k)) /\
  (forall line,
     hit_line fields = Some line ->
     show_hit (JObj fields) w = print [ShowVal (JStr line)] w) /\
  (forall page_id,
     assoc "id" fields = Some (JStr page_id) ->
     has_key "label" fields = false ->
     has_key "description" fields = false ->
     show_hit (JObj fields) w = print [ShowVal (JStr (page_id +:+ ":  "))] w).
Proof.
  split; [reflexivity|].
  apply (show_hit_total (fresh_kernel tt)
           [("id", JStr "Q660732"); ("pageid", JInt 620635)]);
    reflexivity.
Defined.

Example show_hit_bare :
  stdout (fst (show_hit (JObj [("id", JStr "Q660732"); ("pageid", JInt 620635)])
                 (fresh_kernel tt)))
  = [[ShowVal (JStr "Q660732:  ")]].
Proof. reflexivity. Qed.

(** ** The search cell *)

Section MoreRuns.

Context {Srv : Type}.
Variable serve : Srv -> request -> Srv * reply.

#[local] Arguments getitem : simpl never.
#[local] Arguments for_each : simpl never.
#[local] Arguments show_hit : simpl never.

Ltac unfold_monad :=
  unfold bind, ret, lift, name, name_requests, send, print, import_requests,
    assign_API_URI, assign_session, assign_response, assign_token,
    with_globals, new_Session;
  cbn.

Ltac unfold_reads :=
  unfold search_call, entities_call, claims_call, preferred_claims_call,
    login_token_call, login_call, edit_token_call, commit_call, api in *.

Ltac next_reply :=
  match goal with
  | |- context [serve ?s ?rq] =>
      let E := fresh "E" in
      destruct (serve s rq) as [? [|[? [?|]]]] eqn:E; cbn
  end.

Ltac next_item :=
  match goal with
  | |- context [getitem ?j ?k] =>
      let G := fresh "G" in
      destruct (getitem j k) eqn:G; cbn
  end.

Lemma new_lines_app (w w' : world Srv) (ls : list (list shown)) :
  stdout w' = stdout w ++ ls -> new_lines w w' = ls.
Proof. unfold new_lines. intros ->. apply drop_app_length. Qed.

Lemma show_hit_line (w : world Srv) (hit : json) (line : string) :
  hit_text hit = Some line ->
  show_hit hit w = print (text_line line) w.
Proof.
  destruct hit as [| | | | |?|fields]; try discriminate. cbn.
  unfold hit_line, show_hit, bind, lift, ret, contains, getitem, has_key.
  destruct (assoc "id" fields) as [vi|]; [|discriminate].
  destruct (assoc "label" fields) as [vl|];
    destruct (assoc "description" fields) as [vd|];
    destruct vi; try destruct vl; try destruct vd; cbn;
    intros; simplify_eq; reflexivity.
Qed.

Lemma show_hit_without_id (w : world Srv) (fields : list (string * json)) :
  has_key "id" fields = false ->
  show_hit (JObj fields) w = (w, Raise (KeyError (JStr "id"))).
Proof.
  unfold has_key, show_hit, bind, lift, getitem.
  destruct (assoc "id" fields); [discriminate | reflexivity].
Qed.

(** The loop over hits that can all be printed. *)
Lemma for_each_lines (hits : list json) (lines : list string) :
  Forall2 (fun h l => hit_text h = Some l) hits lines ->
  forall w : world Srv,
    for_each show_hit hits w
      = ({| remote := remote w; calls := calls w;
            stdout := stdout w ++ map text_line lines;
            next_id := next_id w; globals := globals w |}, Ok tt).
Proof.
  induction 1 as [|h l hits lines Hh _ IH]; intros w.
  - destruct w; cbn. now rewrite app_nil_r.
  - change (for_each show_hit (h :: hits) w)
      with (bind (show_hit h) (fun _ => for_each show_hit hits) w).
    unfold bind. rewrite (show_hit_line _ _ _ Hh). unfold print.
    rewrite IH. cbn. now rewrite <- app_assoc.
Qed.

(** The loop when a hit without ['id'] comes after hits that can be
    printed. *)
Lemma for_each_stops (pre : list json) (lines : list string)
    (bad : list (string * json)) (post : list json) :
  Forall2 (fun h l => hit_text h = Some l) pre lines ->
  has_key "id" bad = false ->
  forall w : world Srv,
    for_each show_hit (pre ++ JObj bad :: post) w
      = ({| remote := remote w; calls := calls w;
            stdout := stdout w ++ map text_line lines;
            next_id := next_id w; globals := globals w |},
         Raise (KeyError (JStr "id"))).
Proof.
  intros Hpre Hbad. induction Hpre as [|h l pre lines Hh _ IH]; intros w.
  - change (for_each show_hit ([] ++ JObj bad :: post) w)
      with (bind (show_hit (JObj bad)) (fun _ => for_each show_hit post) w).
    unfold bind. rewrite (show_hit_without_id _ _ Hbad).
    destruct w; cbn. now rewrite app_nil_r.
  - change (for_each show_hit ((h :: pre) ++ JObj bad :: post) w)
      with (bind (show_hit h)
              (fun _ => for_each show_hit (pre ++ JObj bad :: post)) w).
    unfold bind. rewrite (show_hit_line _ _ _ Hh). unfold print.
    rewrite IH. cbn. now rewrite <- app_assoc.
Qed.

(** A hit adds at most its line to the output and touches nothing
    else. *)
Lemma show_hit_only_prints (hit : json) (w : world Srv) :
  (exists e, show_hit hit w = (w, Raise e)) \/
  (exists l, show_hit hit w = print l w).
Proof.
  unfold show_hit, bind, lift, ret.
  repeat match goal with
         | |- context [match ?x with _ => _ end] =>
             lazymatch x with
             | getitem _ _ => destruct x
             | contains _ _ => destruct x as [[|]|]
             | add_str _ _ => destruct x
             | _ => is_var x; destruct x
             end; cbn
         end; eauto.
Qed.

Lemma for_each_only_prints (hits : list json) (w : world Srv) :
  exists ls,
    fst (for_each show_hit hits w)
      = {| remote := remote w; calls := calls w; stdout := stdout w ++ ls;
           next_id := next_id w; globals := globals w |}.
Proof.
  revert w. induction hits as [|h hits IH]; intros w.
  - exists []. destruct w; cbn. now rewrite app_nil_r.
  - change (for_each show_hit (h :: hits) w)
      with (bind (show_hit h) (fun _ => for_each show_hit hits) w).
    unfold bind.
    destruct (show_hit_only_prints h w) as [[e ->]|[l ->]].
    + exists []. destruct w; cbn. now rewrite app_nil_r.
    + unfold print. destruct (IH {| remote := remote w; calls := calls w;
          stdout := stdout w ++ [l]; next_id := next_id w;
          globals := globals w |}) as [ls Hls].
      destruct (for_each show_hit hits _) as [w2 []]; cbn in *; subst;
        exists (l :: ls); cbn; now rewrite <- app_assoc.
Qed.

Ltac run_search :=
  unfold notebook_search, cell_3, cell_5; unfold_monad; unfold_reads.

(** X1.  A search that finds nothing makes cell 5 fail: the reply is read,
    and [search_results[0]] raises [IndexError] before anything is
    printed. *)
Theorem search_without_hits (w : world Srv) (s' : Srv) (st : Z) (j : json) :
  serve (remote w) search_call
    = (s', Reply {| status := st; body := Some j |}) ->
  getitem j "search" = Ok (JArr []) ->
  let run := notebook_search serve w in
  snd run = Raise IndexError /\
  new_lines w (fst run) = [] /\
  new_calls w (fst run)
    = [(search_call, Reply {| status := st; body := Some j |})].
Proof.
  intros E G. cbn zeta. run_search. rewrite E. cbn. rewrite G. cbn.
  repeat split.
  - apply new_lines_app. cbn. now rewrite app_nil_r.
  - now apply new_calls_app.
Qed.

(** X2.  When every hit of the reply can be printed (it has a text ['id'],
    and its ['label'] and ['description'] are text when present), cell 5
    completes after one request made through no session, and prints the
    keys of the first hit, an empty line, and one line per hit in the order
    of the reply. *)
Theorem search_prints_every_hit (w : world Srv) (s' : Srv) (st : Z)
    (j : json) (f : list (string * json)) (rest : list json)
    (lines : list string) :
  serve (remote w) search_call
    = (s', Reply {| status := st; body := Some j |}) ->
  getitem j "search" = Ok (JArr (JObj f :: rest)) ->
  Forall2 (fun h l => hit_text h = Some l) (JObj f :: rest) lines ->
  let run := notebook_search serve w in
  snd run = Ok tt /\
  new_lines w (fst run)
    = [ShowVal (JStr "fields of a search hit:"); ShowKeys (map fst f)]
      :: [] :: map text_line lines /\
  new_calls w (fst run)
    = [(search_call, Reply {| status := st; body := Some j |})].
Proof.
  intros E G Hl. cbn zeta. run_search. rewrite E. cbn. rewrite G. cbn.
  rewrite (for_each_lines _ _ Hl). cbn. repeat split.
  - apply new_lines_app. now rewrite <- !app_assoc.
  - now apply new_calls_app.
Qed.

(** X3.  The loop of cell 5 stops at the first hit without an ['id']: the
    cell raises [KeyError], the lines of the hits before it are printed,
    and no line of a later hit is. *)
Theorem search_stops_at_hit_without_id (w : world Srv) (s' : Srv) (st : Z)
    (j : json) (pre : list json) (lines : list string)
    (bad : list (string * json)) (post : list json) :
  serve (remote w) search_call
    = (s', Reply {| status := st; body := Some j |}) ->
  getitem j "search" = Ok (JArr (pre ++ JObj bad :: post)) ->
  Forall2 (fun h l => hit_text h = Some l) pre lines ->
  has_key "id" bad = false ->
  let run := notebook_search serve w in
  snd run = Raise (KeyError (JStr "id")) /\
  drop 2 (new_lines w (fst run)) = map text_line lines.
Proof.
  intros E G Hl Hb. cbn zeta. run_search. rewrite E. cbn. rewrite G.
  assert (exists f0 tl0, pre ++ JObj bad :: post = JObj f0 :: tl0)
    as (f0 & tl0 & Hshape).
  { destruct Hl as [|h l pre lines Hh _]; cbn; [eauto|].
    destruct h; try discriminate. eauto. }
  cbn. rewrite Hshape. cbn. rewrite <- Hshape.
  rewrite (for_each_stops _ _ _ _ Hl Hb). cbn. split; [reflexivity|].
  erewrite new_lines_app; [|now rewrite <- !app_assoc]. reflexivity.
Qed.

(** X4.  Cell 5 prints something only when the reply is a JSON object
    whose ['search'] is a list that is not empty and starts with a dict;
    what it prints first is then the keys of that dict. *)
Theorem search_output_needs_a_first_hit (w : world Srv) :
  let run := notebook_search serve w in
  new_lines w (fst run) <> [] ->
  exists s' st j f rest,
    serve (remote w) search_call
      = (s', Reply {| status := st; body := Some j |}) /\
    getitem j "search" = Ok (JArr (JObj f :: rest)) /\
    head (new_lines w (fst run))
      = Some [ShowVal (JStr "fields of a search hit:");
              ShowKeys (map fst f)].
Proof.
  cbn zeta. run_search.
  destruct (serve (remote w) _) as [s' [|[st [j|]]]] eqn:E; cbn.
  1,3: intros H; exfalso; apply H; apply new_lines_app; cbn;
       now rewrite app_nil_r.
  destruct (getitem j "search") as [sr|x] eqn:G; cbn.
  2: intros H; exfalso; apply H; apply new_lines_app; cbn;
     now rewrite app_nil_r.
  destruct sr as [| | | |str|[|[| | | | | |f] rest]|];
    try (cbn; intros H; exfalso; apply H; apply new_lines_app; cbn;
         now rewrite app_nil_r).
  - cbn. destruct (chars str); cbn; intros H; exfalso; apply H;
      apply new_lines_app; cbn; now rewrite app_nil_r.
  - cbn. intros _. exists s', st, j, f, rest.
    split; [reflexivity|]. split; [exact G|].
    match goal with
    | |- context [for_each show_hit ?hs ?w0] =>
        destruct (for_each_only_prints hs w0) as [ls Hls];
        destruct (for_each show_hit hs w0) as [w2 r2]
    end.
    cbn in *. subst w2. cbn.
    erewrite new_lines_app; [|now rewrite <- !app_assoc]. reflexivity.
Qed.

(** ** The entity cells *)

Ltac feed :=
  cbn; repeat (match goal with
               | H : getitem _ _ = _ |- _ => rewrite H
               | H : serve _ _ = _ |- _ => rewrite H
               | H : n_requests _ = _ |- _ => rewrite H
               | H : n_API_URI _ = _ |- _ => rewrite H
               | H : n_response _ = _ |- _ => rewrite H
               end; cbn).

(** Turn [path ks j = Ok v] into one equation per subscript. *)
Ltac open_path H :=
  cbn in H;
  repeat match type of H with
         | context [match getitem ?a ?k with _ => _ end] =>
             let G := fresh "G" in
             destruct (getitem a k) eqn:G; [cbn in H | discriminate H]
         end;
  try (injection H as H); subst.

Ltac lines_and_calls :=
  repeat split;
  [ apply new_lines_app; cbn; rewrite <- ?app_assoc, ?app_nil_r; reflexivity
  | apply new_calls_app; reflexivity ].

(** X5.  Cell 8 prints as it goes.  For an entity without an English
    label it raises [KeyError] on ['en'] after the keys of the entity, the
    empty line and the Q-number are printed, and before anything about the
    description or the claims. *)
Theorem entity_without_english_label (w : world Srv) (s' : Srv) (st : Z)
    (j t : json) (z ls : list (string * json)) :
  ready w ->
  serve (remote w) entities_call
    = (s', Reply {| status := st; body := Some j |}) ->
  path ["entities"; "Q72"] j = Ok (JObj z) ->
  getitem (JObj z) "title" = Ok t ->
  getitem (JObj z) "labels" = Ok (JObj ls) ->
  has_key "en" ls = false ->
  snd (cell_8 serve w) = Raise (KeyError (JStr "en")) /\
  new_lines w (fst (cell_8 serve w))
    = [[ShowVal (JStr "Zurich's fields:"); ShowKeys (map fst z)];
       [];
       [ShowVal (JStr "Zurich's Q-Number:"); ShowVal t]].
Proof.
  intros [Hq Hu] E Hp Ht Hl Hen. open_path Hp.
  assert (getitem (JObj ls) "en" = Raise (KeyError (JStr "en"))) as Hen'.
  { unfold getitem, has_key in *. now destruct (assoc "en" ls). }
  unfold cell_8. unfold_monad. unfold_reads. feed.
  split; [reflexivity|].
  apply new_lines_app; cbn; rewrite <- ?app_assoc; reflexivity.
Qed.

(** X6.  For an entity that has them all, cell 8 makes one request through
    no session and prints six lines; the values it prints under the
    headings "French label" and "French description" are the ones stored
    under ['en']. *)
Theorem entity_printed (w : world Srv) (s' : Srv) (st : Z)
    (j t l d : json) (z c : list (string * json)) :
  ready w ->
  serve (remote w) entities_call
    = (s', Reply {| status := st; body := Some j |}) ->
  path ["entities"; "Q72"] j = Ok (JObj z) ->
  getitem (JObj z) "title" = Ok t ->
  path ["labels"; "en"; "value"] (JObj z) = Ok l ->
  path ["descriptions"; "en"; "value"] (JObj z) = Ok d ->
  getitem (JObj z) "claims" = Ok (JObj c) ->
  snd (cell_8 serve w) = Ok tt /\
  new_lines w (fst (cell_8 serve w))
    = [[ShowVal (JStr "Zurich's fields:"); ShowKeys (map fst z)];
       [];
       [ShowVal (JStr "Zurich's Q-Number:"); ShowVal t];
       [ShowVal (JStr "Zurich's French label:"); ShowVal l];
       [ShowVal (JStr "Zurich's French description:"); ShowVal d];
       [ShowVal (JStr "Claims about Zurich: "); ShowKeys (map fst c)]] /\
  new_calls w (fst (cell_8 serve w))
    = [(entities_call, Reply {| status := st; body := Some j |})].
Proof.
  intros [Hq Hu] E Hp Ht Hl Hd Hc. open_path Hp. open_path Hl. open_path Hd.
  unfold cell_8. unfold_monad. unfold_reads. feed.
  lines_and_calls.
Qed.

(** X7.  Cell 11 sends nothing: it reads the reply [response] is bound
    to.  When that reply has nothing under ['entities']['P17'], as after
    cell 13 has bound [response] to a reply about claims, it raises what
    the lookup raises and leaves the kernel as it was. *)
Theorem country_needs_entities_reply (w : world Srv) (resp : response)
    (x : exn) :
  n_response (globals w) = Some resp ->
  read ["entities"; "P17"] (Reply resp) = Raise x ->
  cell_11 w = (w, Raise x).
Proof.
  intros Hr Hx. unfold cell_11. unfold_monad. rewrite Hr. cbn.
  unfold read in Hx. destruct (json_of resp) as [j|]; cbn in *;
    [|congruence].
  destruct (getitem j "entities") as [ents|]; cbn in *; [|congruence].
  destruct (getitem ents "P17"); cbn in *; congruence.
Qed.


Ltac use_items :=
  cbn; repeat (match goal with
               | H : getitem _ _ = _ |- _ => rewrite H
               end; cbn).


(** ** The claims cell *)

Ltac run_claims Hq Hu :=
  unfold cell_13; unfold_monad; rewrite ?Hq, ?Hu; cbn; unfold_reads.

(** X9.  When both replies hold a list under ['claims']['P31'], cell 13
    makes its two requests in order, the second with [rank] set to
    [preferred], and prints the length of the first list and then the
    length of the second. *)
Theorem claims_counted (w : world Srv) (s1 s2 : Srv) (st1 st2 : Z)
    (j1 j2 : json) (all preferred : list json) :
  ready w ->
  serve (remote w) claims_call
    = (s1, Reply {| status := st1; body := Some j1 |}) ->
  path ["claims"; "P31"] j1 = Ok (JArr all) ->
  serve s1 preferred_claims_call
    = (s2, Reply {| status := st2; body := Some j2 |}) ->
  path ["claims"; "P31"] j2 = Ok (JArr preferred) ->
  snd (cell_13 serve w) = Ok tt /\
  new_lines w (fst (cell_13 serve w))
    = [[ShowVal (JStr "number of claims for Q72's P31:");
        ShowVal (JInt (Z.of_nat (length all)))];
       [ShowVal (JStr "number of preferred claims for Q72's P31:");
        ShowVal (JInt (Z.of_nat (length preferred)))]] /\
  new_calls w (fst (cell_13 serve w))
    = [(claims_call, Reply {| status := st1; body := Some j1 |});
       (preferred_claims_call, Reply {| status := st2; body := Some j2 |})].
Proof.
  intros [Hq Hu] E1 P1 E2 P2. open_path P1. open_path P2.
  run_claims Hq Hu. feed.
  repeat split.
  - apply new_lines_app; cbn; rewrite <- ?app_assoc; reflexivity.
  - apply new_calls_app; cbn; rewrite <- ?app_assoc; reflexivity.
Qed.

(** X10.  When the first reply of cell 13 cannot be read down to
    ['claims']['P31'] (nothing came back, the body is not JSON, or the
    entity has no such claims), the cell raises what reading raises, does
    not send the second request and prints nothing. *)
Theorem claims_first_reply_unread (w : world Srv) (s1 : Srv) (r1 : reply)
    (x : exn) :
  ready w ->
  serve (remote w) claims_call = (s1, r1) ->
  read ["claims"; "P31"] r1 = Raise x ->
  snd (cell_13 serve w) = Raise x /\
  new_lines w (fst (cell_13 serve w)) = [] /\
  new_calls w (fst (cell_13 serve w)) = [(claims_call, r1)].
Proof.
  intros [Hq Hu] E1 R1. run_claims Hq Hu. rewrite E1. cbn.
  destruct r1 as [|[st [j|]]]; cbn in *.
  1,3: injection R1 as <-; repeat split;
       [apply new_lines_app; cbn; now rewrite app_nil_r
       | now apply new_calls_app].
  destruct (getitem j "claims") as [c|] eqn:G1; cbn in *.
  1: destruct (getitem c "P31") as [c'|] eqn:G2; cbn in *; [discriminate|].
  all: injection R1 as <-; repeat split;
       [apply new_lines_app; cbn; now rewrite app_nil_r
       | now apply new_calls_app].
Qed.

(** X11.  Cell 13 prints its two counts only after both requests: when
    the second reply cannot be read the cell raises what reading raises
    with both requests made and nothing printed, the count of the first
    reply included. *)
Theorem claims_second_reply_unread (w : world Srv) (s1 s2 : Srv)
    (r1 r2 : reply) (a : json) (x : exn) :
  ready w ->
  serve (remote w) claims_call = (s1, r1) ->
  read ["claims"; "P31"] r1 = Ok a ->
  serve s1 preferred_claims_call = (s2, r2) ->
  read ["claims"; "P31"] r2 = Raise x ->
  snd (cell_13 serve w) = Raise x /\
  new_lines w (fst (cell_13 serve w)) = [] /\
  new_calls w (fst (cell_13 serve w))
    = [(claims_call, r1); (preferred_claims_call, r2)].
Proof.
  intros [Hq Hu] E1 R1 E2 R2. run_claims Hq Hu. rewrite E1. cbn.
  destruct r1 as [|[st1 [j1|]]]; cbn in R1; try discriminate.
  open_path R1. use_items. rewrite Hq, Hu. cbn. rewrite E2. cbn.
  destruct r2 as [|[st2 [j2|]]]; cbn in *.
  1,3: injection R2 as <-; repeat split;
       [apply new_lines_app; cbn; now rewrite app_nil_r
       | apply new_calls_app; cbn; now rewrite <- app_assoc].
  destruct (getitem j2 "claims") as [c|] eqn:G1'; cbn in *.
  1: destruct (getitem c "P31") as [c'|] eqn:G2'; cbn in *; [discriminate|].
  all: injection R2 as <-; repeat split;
       [apply new_lines_app; cbn; now rewrite app_nil_r
       | apply new_calls_app; cbn; now rewrite <- app_assoc].
Qed.

(** ** The write cells out of their order *)

(** X12.  The commit cell sends its request exactly when [session],
    [API_URI] and [token] are all bound.  With one of them unbound it
    raises [NameError] and leaves the kernel and the service as they
    were. *)
Theorem commit_needs_its_names (w : world Srv) (e : edit) :
  (n_session (globals w) = None \/ n_API_URI (globals w) = None \/
   n_token (globals w) = None ->
   exists id, create_claim_cell serve e w = (w, Raise (NameError id))) /\
  (n_session (globals w) <> None /\ n_API_URI (globals w) <> None /\
   n_token (globals w) <> None ->
   length (new_calls w (fst (create_claim_cell serve e w))) = 1).
Proof.
  unfold create_claim_cell. unfold_monad.
  destruct (n_session (globals w)) as [sid|];
    destruct (n_API_URI (globals w)) as [uri|];
    destruct (n_token (globals w)) as [t|]; cbn.
  all: split; [intros [|[|]]; try discriminate; eauto
              | intros (? & ? & ?); try congruence].
  next_reply; (erewrite new_calls_app; [|reflexivity]); reflexivity.
Qed.

(** X13.  Running cell 17 again does not reuse the session: the second
    login-token request goes through a new [Session] object, and [session]
    is bound to that one afterwards. *)
Theorem rerun_of_cell_17_new_session (w : world Srv) :
  let run := cell_17_again serve w in
  let steps := new_calls w (fst run) in
  (exists r1 x,
     steps = [(login_token_call (next_id w), r1)] /\
     snd run = Raise x /\
     n_session (globals (fst run)) = Some (next_id w)) \/
  (exists r1 r2,
     steps = [(login_token_call (next_id w), r1);
              (login_token_call (S (next_id w)), r2)] /\
     n_session (globals (fst run)) = Some (S (next_id w))).
Proof.
  cbn zeta. unfold cell_17_again, cell_3, cell_17. unfold_monad.
  unfold_reads.
  next_reply; [left | | left].
  2: repeat next_item; [| left ..].
  2: next_reply; [right | | right].
  3: repeat next_item; right.
  all: eexists _, _; repeat split;
    erewrite new_calls_app; cbn; rewrite <- ?app_assoc; reflexivity.
Qed.

(** X14.  When the handshake fails at the edit-token request, [token]
    still holds the login token read from the first reply, and the commit
    cell run next sends that login token as its [token]. *)
Theorem failed_edit_token_leaves_login_token (w : world Srv) (u p : string)
    (e : edit) (x : exn) (rq3 : request) (r3 : reply) :
  snd (handshake serve u p w) = Raise x ->
  new_calls w (fst (handshake serve u p w)) !! 2 = Some (rq3, r3) ->
  let w' := fst (handshake serve u p w) in
  exists r1 t1,
    new_calls w w' !! 0 = Some (login_token_call (next_id w), r1) /\
    read login_token_path r1 = Ok t1 /\
    rq3 = edit_token_call (next_id w) /\
    n_token (globals w') = Some t1 /\
    map fst (new_calls w' (fst (create_claim_cell serve e w')))
      = [commit_call (next_id w) e t1].
Proof.
  cbn zeta.
  destruct (handshake_runs serve w u p)
    as (steps & prints & tk & Hc & Hcalls & _ & _ & _ & Hs & Hu & Ht & _).
  destruct (handshake serve u p w) as [w' r]; cbn [fst snd] in *.
  rewrite (new_calls_app _ _ _ Hcalls). intros -> H3.
  inversion Hc; subst; cbn in H3; simplify_eq.
  destruct (create_claim_cell_runs serve w' e _ _ Hs Hu Ht)
    as (_ & _ & Hcalls' & _).
  eexists _, _. repeat split; try eassumption.
  now rewrite (new_calls_app _ _ _ Hcalls').
Qed.

End MoreRuns.

(** ** From top to bottom *)

Section Order.

Context {Srv : Type}.
Variable serve : Srv -> request -> Srv * reply.

#[local] Arguments getitem : simpl never.
#[local] Arguments getitem0 : simpl never.
#[local] Arguments keys : simpl never.
#[local] Arguments iter : simpl never.
#[local] Arguments len : simpl never.
#[local] Arguments for_each : simpl never.
#[local] Arguments show_hit : simpl never.

Ltac unfold_monad :=
  unfold bind, ret, lift, name, name_requests, send, print, import_requests,
    assign_API_URI, assign_session, assign_response, assign_token,
    with_globals, new_Session;
  cbn.











End Order.

(** ** The further statements at concrete runs *)

(** A search with no hit. *)
Lemma search_without_hits_witness :
  let w := fresh_kernel [ok (JObj [("search", JArr [])])] in
  let run := notebook_search scripted w in
  snd run = Raise IndexError /\
  new_lines w (fst run) = [] /\
  new_calls w (fst run) = [(search_call, ok (JObj [("search", JArr [])]))].
Proof.
  apply (search_without_hits scripted
           (fresh_kernel [ok (JObj [("search", JArr [])])]) [] 200
           (JObj [("search", JArr [])]));
    reflexivity.
Defined.

(** The three hits of the notebook. *)
Lemma search_prints_every_hit_witness :
  let w := fresh_kernel [ok three_hits] in
  let run := notebook_search scripted w in
  snd run = Ok tt /\
  new_lines w (fst run)
    = [ShowVal (JStr "fields of a search hit:");
       ShowKeys ["id"; "label"; "description"]]
      :: [] :: map text_line
          ["Q72: Zürich (capital of the canton of Zürich, Switzerland)";
           "Q11943: canton of Zürich (canton of Switzerland)";
           "Q660732: Zürich District "] /\
  new_calls w (fst run) = [(search_call, ok three_hits)].
Proof.
  apply (search_prints_every_hit scripted (fresh_kernel [ok three_hits]) []
           200 three_hits
           [("id", JStr "Q72"); ("label", JStr "Zürich");
            ("description",
             JStr "capital of the canton of Zürich, Switzerland")]
           [JObj [("id", JStr "Q11943"); ("label", JStr "canton of Zürich");
                  ("description", JStr "canton of Switzerland")];
            JObj [("id", JStr "Q660732"); ("label", JStr "Zürich District")]]);
    [reflexivity | reflexivity | repeat constructor].
Defined.

(** A hit without ['id'] in second place. *)
Lemma search_stops_at_hit_without_id_witness :
  let w := fresh_kernel [ok broken_hits] in
  let run := notebook_search scripted w in
  has_key "id" [("label", JStr "canton of Zürich")] = false /\
  snd run = Raise (KeyError (JStr "id")) /\
  drop 2 (new_lines w (fst run)) = map text_line ["Q72: Zürich "].
Proof.
  split; [reflexivity|].
  apply (search_stops_at_hit_without_id scripted
           (fresh_kernel [ok broken_hits]) [] 200 broken_hits
           [JObj [("id", JStr "Q72"); ("label", JStr "Zürich")]]
           ["Q72: Zürich "]
           [("label", JStr "canton of Zürich")]
           [JObj [("id", JStr "Q660732")]]);
    [reflexivity | reflexivity | repeat constructor | reflexivity].
Defined.

Lemma search_output_needs_a_first_hit_witness :
  let w := fresh_kernel [ok three_hits] in
  let run := notebook_search scripted w in
  new_lines w (fst run) <> [] /\
  exists s' st j f rest,
    scripted (remote w) search_call
      = (s', Reply {| status := st; body := Some j |}) /\
    getitem j "search" = Ok (JArr (JObj f :: rest)) /\
    head (new_lines w (fst run))
      = Some [ShowVal (JStr "fields of a search hit:");
              ShowKeys (map fst f)].
Proof.
  assert (new_lines (fresh_kernel [ok three_hits])
            (fst (notebook_search scripted (fresh_kernel [ok three_hits])))
          <> []) as Hne by (vm_compute; discriminate).
  split; [exact Hne|].
  exact (search_output_needs_a_first_hit scripted
           (fresh_kernel [ok three_hits]) Hne).
Defined.

(** An item whose only label is German. *)
Lemma entity_without_english_label_witness :
  let w := ready_kernel
             [ok (entities_doc [("de", JObj [("value", JStr "Zürich")])])] in
  ready w /\
  snd (cell_8 scripted w) = Raise (KeyError (JStr "en")) /\
  new_lines w (fst (cell_8 scripted w))
    = [[ShowVal (JStr "Zurich's fields:");
        ShowKeys ["title"; "labels"; "descriptions"; "claims"]];
       [];
       [ShowVal (JStr "Zurich's Q-Number:"); ShowVal (JStr "Q72")]].
Proof.
  assert (ready (ready_kernel
            [ok (entities_doc [("de", JObj [("value", JStr "Zürich")])])]))
    as Hr by (split; reflexivity).
  split; [exact Hr|].
  apply (entity_without_english_label scripted _ [] 200
           (entities_doc [("de", JObj [("value", JStr "Zürich")])])
           (JStr "Q72")
           [("title", JStr "Q72");
            ("labels", JObj [("de", JObj [("value", JStr "Zürich")])]);
            ("descriptions",
             JObj [("en", JObj [("value",
                JStr "capital of the canton of Zürich, Switzerland")])]);
            ("claims", JObj [("P31", JArr []); ("P17", JArr [])])]
           [("de", JObj [("value", JStr "Zürich")])] Hr);
    reflexivity.
Defined.

(** The item as the notebook shows it. *)
Lemma entity_printed_witness :
  let w := ready_kernel [ok (entities_doc (english "Zürich"))] in
  ready w /\
  snd (cell_8 scripted w) = Ok tt /\
  new_lines w (fst (cell_8 scripted w))
    = [[ShowVal (JStr "Zurich's fields:");
        ShowKeys ["title"; "labels"; "descriptions"; "claims"]];
       [];
       [ShowVal (JStr "Zurich's Q-Number:"); ShowVal (JStr "Q72")];
       [ShowVal (JStr "Zurich's French label:"); ShowVal (JStr "Zürich")];
       [ShowVal (JStr "Zurich's French description:");
        ShowVal (JStr "capital of the canton of Zürich, Switzerland")];
       [ShowVal (JStr "Claims about Zurich: "); ShowKeys ["P31"; "P17"]]] /\
  new_calls w (fst (cell_8 scripted w))
    = [(entities_call, ok (entities_doc (english "Zürich")))].
Proof.
  assert (ready (ready_kernel [ok (entities_doc (english "Zürich"))]))
    as Hr by (split; reflexivity).
  split; [exact Hr|].
  apply (entity_printed scripted _ [] 200 (entities_doc (english "Zürich"))
           (JStr "Q72") (JStr "Zürich")
           (JStr "capital of the canton of Zürich, Switzerland")
           [("title", JStr "Q72");
            ("labels", JObj (english "Zürich"));
            ("descriptions",
             JObj [("en", JObj [("value",
                JStr "capital of the canton of Zürich, Switzerland")])]);
            ("claims", JObj [("P31", JArr []); ("P17", JArr [])])]
           [("P31", JArr []); ("P17", JArr [])] Hr);
    reflexivity.
Defined.

(** Cell 11 after cell 13 has run. *)
Lemma country_needs_entities_reply_witness :
  let w := fst (cell_13 scripted
                  (ready_kernel [ok (claims_doc 6); ok (claims_doc 4)])) in
  n_response (globals w) = Some {| status := 200; body := Some (claims_doc 4) |} /\
  cell_11 w = (w, Raise (KeyError (JStr "entities"))).
Proof.
  split; [reflexivity|].
  apply (country_needs_entities_reply
           (fst (cell_13 scripted
                   (ready_kernel [ok (claims_doc 6); ok (claims_doc 4)])))
           {| status := 200; body := Some (claims_doc 4) |});
    reflexivity.
Defined.


(** Six claims, four of them preferred, as in the notebook. *)
Lemma claims_counted_witness :
  let w := ready_kernel [ok (claims_doc 6); ok (claims_doc 4)] in
  ready w /\
  snd (cell_13 scripted w) = Ok tt /\
  new_lines w (fst (cell_13 scripted w))
    = [[ShowVal (JStr "number of claims for Q72's P31:"); ShowVal (JInt 6)];
       [ShowVal (JStr "number of preferred claims for Q72's P31:");
        ShowVal (JInt 4)]] /\
  new_calls w (fst (cell_13 scripted w))
    = [(claims_call, ok (claims_doc 6));
       (preferred_claims_call, ok (claims_doc 4))].
Proof.
  assert (ready (ready_kernel [ok (claims_doc 6); ok (claims_doc 4)]))
    as Hr by (split; reflexivity).
  split; [exact Hr|].
  apply (claims_counted scripted _ [ok (claims_doc 4)] [] 200 200
           (claims_doc 6) (claims_doc 4)
           (replicate 6 (JObj [("type", JStr "statement")]))
           (replicate 4 (JObj [("type", JStr "statement")])) Hr);
    reflexivity.
Defined.

(** An item without claims for the property. *)
Lemma claims_first_reply_unread_witness :
  let w := ready_kernel [ok (JObj [("claims", JObj [])]); ok (claims_doc 4)] in
  read ["claims"; "P31"] (ok (JObj [("claims", JObj [])]))
    = Raise (KeyError (JStr "P31")) /\
  snd (cell_13 scripted w) = Raise (KeyError (JStr "P31")) /\
  new_lines w (fst (cell_13 scripted w)) = [] /\
  new_calls w (fst (cell_13 scripted w))
    = [(claims_call, ok (JObj [("claims", JObj [])]))].
Proof.
  split; [reflexivity|].
  apply (claims_first_reply_unread scripted
           (ready_kernel [ok (JObj [("claims", JObj [])]); ok (claims_doc 4)])
           [ok (claims_doc 4)] (ok (JObj [("claims", JObj [])])));
    [split; reflexivity | reflexivity | reflexivity].
Defined.

(** The second request gets no reply. *)
Lemma claims_second_reply_unread_witness :
  let w := ready_kernel [ok (claims_doc 6)] in
  read ["claims"; "P31"] NoReply = Raise RequestException /\
  snd (cell_13 scripted w) = Raise RequestException /\
  new_lines w (fst (cell_13 scripted w)) = [] /\
  new_calls w (fst (cell_13 scripted w))
    = [(claims_call, ok (claims_doc 6)); (preferred_claims_call, NoReply)].
Proof.
  split; [reflexivity|].
  apply (claims_second_reply_unread scripted
           (ready_kernel [ok (claims_doc 6)]) [] [] (ok (claims_doc 6))
           NoReply
           (JArr (replicate 6 (JObj [("type", JStr "statement")]))));
    [split; reflexivity | reflexivity ..].
Defined.

(** The commit cell in a kernel where only cell 3 has run. *)
Lemma commit_needs_its_names_witness :
  let w := ready_kernel happy_script in
  n_session (globals w) = None /\
  exists id, create_claim_cell scripted sandbox_edit w
             = (w, Raise (NameError id)).
Proof.
  split; [reflexivity|].
  apply (proj1 (commit_needs_its_names scripted (ready_kernel happy_script)
                  sandbox_edit)).
  left. reflexivity.
Defined.

(** The edit-token request gets no reply. *)
Lemma failed_edit_token_leaves_login_token_witness :
  let w := fresh_kernel [ok (token_doc "logintoken" "T1");
                         ok (login_doc "Success")] in
  let w' := fst (handshake scripted lkastler bot_password w) in
  snd (handshake scripted lkastler bot_password w) = Raise RequestException /\
  exists r1 t1,
    new_calls w w' !! 0 = Some (login_token_call 0, r1) /\
    read login_token_path r1 = Ok t1 /\
    edit_token_call 0 = edit_token_call 0 /\
    n_token (globals w') = Some t1 /\
    map fst (new_calls w' (fst (create_claim_cell scripted sandbox_edit w')))
      = [commit_call 0 sandbox_edit t1].
Proof.
  split; [reflexivity|].
  apply (failed_edit_token_leaves_login_token scripted
           (fresh_kernel [ok (token_doc "logintoken" "T1");
                          ok (login_doc "Success")])
           lkastler bot_password sandbox_edit RequestException
           (edit_token_call 0) NoReply);
    reflexivity.
Defined.
